(** * simple-schema-validator: the validation engine of [src/schemaValidator.ts]

    A shallow embedding of the five schema kinds, of the dynamically typed
    data values the validator receives, and of the recursive validator
    (factory dispatch, five validator classes), followed by the properties
    of the engine. *)

From Stdlib Require Import Floats.
From stdpp Require Import gmap strings list fin_maps pretty.

#[local] Set Warnings "-register-all".
#[local] Open Scope string_scope.
#[local] Open Scope list_scope.
#[local] Open Scope nat_scope.

(** ** Schema model (schemaValidator.ts, lines 9-46) *)

(** The union [StringSchema | NumberSchema | BooleanSchema | ObjectSchema |
    ArraySchema].  An optional field ([enum?], [required?]) is an [option];
    [properties] is a [Record<string, ...>], a finite map from names to
    sub-schemas. *)
Inductive schema : Type :=
  | StringSchema (enum : option (list string))
  | NumberSchema
  | BooleanSchema
  | ObjectSchema (properties : gmap string schema) (required : option (list string))
  | ArraySchema (items : schema).

(** ** Data values ([data: any]) *)

(** The run-time values the validator tells apart.  An object lists its own
    enumerable properties in the order [Object.keys] enumerates them; the
    keys of an object are pairwise distinct, so [data[key]] is the value
    listed with [key].  An array is the list of its elements.  (A value of
    any other type, a function say, fails every check the way [undefined]
    does, under its own [typeof].) *)
Inductive value : Type :=
  | VString (s : string)
  | VNumber (x : float)
  | VBoolean (b : bool)
  | VNull
  | VUndefined
  | VObject (entries : list (string * value))
  | VArray (elems : list value).

(** [typeof data] *)
Definition typeof (data : value) : string :=
  match data with
  | VString _ => "string"
  | VNumber _ => "number"
  | VBoolean _ => "boolean"
  | VUndefined => "undefined"
  | VNull | VObject _ | VArray _ => "object"
  end.

(** [Array.isArray(data)] *)
Definition isArray (data : value) : bool :=
  match data with
  | VArray _ => true
  | _ => false
  end.

(** [Object.keys(data)] for the values whose [typeof] is ["object"]: the own
    keys of an object, the indices of an array in decimal; [None] stands for
    the [TypeError] the host raises on [null] (and [undefined]). *)
Definition Object_keys (data : value) : option (list string) :=
  match data with
  | VObject entries => Some entries.*1
  | VArray elems => Some (pretty <$> seq 0 (length elems))
  | VNull | VUndefined => None
  | VString _ | VNumber _ | VBoolean _ => Some []
  end.

(** ** What reaches the [schema] parameter at run time *)

(** The names every object literal inherits from [Object.prototype]: a
    property read [props[key]] finds them when [props] has no own [key]. *)
Definition Object_prototype_keys : list string :=
  [ "constructor"; "hasOwnProperty"; "isPrototypeOf"; "propertyIsEnumerable";
    "toLocaleString"; "toString"; "valueOf"; "__proto__";
    "__defineGetter__"; "__defineSetter__"; "__lookupGetter__"; "__lookupSetter__" ].

(** The recursive call passes [props[key]] on as the schema: a node of the
    declared union, or an inherited member of [Object.prototype] (a function,
    or the prototype itself), which is truthy and has no [type] field. *)
Inductive schemaRef : Type :=
  | Node (s : schema)
  | ProtoMember (name : string).

(** [schema.type]; [None] is [undefined]. *)
Definition schema_type (schema : schemaRef) : option string :=
  match schema with
  | Node (StringSchema _) => Some "string"
  | Node NumberSchema => Some "number"
  | Node BooleanSchema => Some "boolean"
  | Node (ObjectSchema _ _) => Some "object"
  | Node (ArraySchema _) => Some "array"
  | ProtoMember _ => None
  end.

(** [props[key]]; [None] is [undefined], the only falsy outcome. *)
Definition get_property (props : gmap string schema) (key : string) : option schemaRef :=
  match props !! key with
  | Some s => Some (Node s)
  | None =>
      if bool_decide (key ∈ Object_prototype_keys) then Some (ProtoMember key) else None
  end.

(** ** Outcomes *)

(** What a call throws.  The first four are the [new Error(...)] of the
    validators, with the parts their messages interpolate; the last two are
    the host's [TypeError]s: from [Object.keys(null)] on line 68, and from the
    conversion of [props] to a string in the message of line 77. *)
Inductive exn : Type :=
  | DataTypeMismatch (dataType : string) (schemaType : option string)
  | MissingRequired (requiredProps : list string)
  | KeyNotFound (key : string)
  | NotInEnum
  | KeysOfNull
  | PropsNotPrimitive.

(** The validation-error kinds. *)
Inductive errorKind : Type :=
  | TypeMismatch
  | EnumViolation
  | MissingRequiredField
  | UnknownProperty.

Definition kind_of (e : exn) : option errorKind :=
  match e with
  | DataTypeMismatch _ _ => Some TypeMismatch
  | MissingRequired _ => Some MissingRequiredField
  | KeyNotFound _ => Some UnknownProperty
  | NotInEnum => Some EnumViolation
  | KeysOfNull => None
  | PropsNotPrimitive => None
  end.

(** A call returns normally ([Ok]) or throws. *)
Inductive result : Type :=
  | Ok
  | Throw (e : exn).

(** The call fails with a validation error of kind [k]. *)
Definition fails_with (k : errorKind) (r : result) : Prop :=
  match r with
  | Ok => False
  | Throw e => kind_of e = Some k
  end.

#[global] Instance errorKind_eq_dec : EqDecision errorKind.
Proof. solve_decision. Defined.

#[global] Instance fails_with_dec k r : Decision (fails_with k r).
Proof. destruct r; simpl; apply _. Defined.

(** ** Array helpers used by the validators *)

(** [arr.includes(v)] on strings: exact equality with some element. *)
Definition includes (arr : list string) (v : string) : bool :=
  bool_decide (v ∈ arr).

(** [isInEvery(arr, target)], line 69: [target.every(v => arr.includes(v))]. *)
Definition isInEvery (arr target : list string) : bool :=
  forallb (includes arr) target.

(** [arr.forEach(callback)]: the callback runs on each element in order,
    with its index; what it throws ends the loop and propagates. *)
Definition forEach {A : Type} (callback : A → nat → result) : nat → list A → result :=
  fix go (i : nat) (arr : list A) : result :=
    match arr with
    | [] => Ok
    | x :: rest =>
        match callback x i with
        | Ok => go (S i) rest
        | Throw e => Throw e
        end
    end.

(** ** The validator classes *)

(** The error of lines 65, 87, 97, 106 and 112:
    [`Data type ${typeof data} does not match schema type ${schema.type}`]. *)
Definition mismatch (data : value) (schema : schemaRef) : result :=
  Throw (DataTypeMismatch (typeof data) (schema_type schema)).

(** [stringValidator.validate], lines 96-101. *)
Definition stringValidator_validate (data : value) (schema : schemaRef) : result :=
  if bool_decide (typeof data ≠ "string")
     || bool_decide (schema_type schema ≠ Some "string")
     || bool_decide (Some (typeof data) ≠ schema_type schema)
  then mismatch data schema
  else
    match schema, data with
    | Node (StringSchema (Some enum)), VString s =>
        if includes enum s then Ok else Throw NotInEnum
    | _, _ => Ok
    end.

(** [booleanValidator.validate], lines 105-107. *)
Definition booleanValidator_validate (data : value) (schema : schemaRef) : result :=
  if bool_decide (typeof data ≠ "boolean")
     || bool_decide (Some (typeof data) ≠ schema_type schema)
  then mismatch data schema
  else Ok.

(** [numberValidator.validate], lines 111-113. *)
Definition numberValidator_validate (data : value) (schema : schemaRef) : result :=
  if bool_decide (typeof data ≠ "number")
     || bool_decide (Some (typeof data) ≠ schema_type schema)
  then mismatch data schema
  else Ok.

(** What the [throw] of line 77 throws.  Its message interpolates [props],
    and the conversion of an object to a string calls its [toString]: when
    [properties] declares a property named [toString], the member found is a
    sub-schema and no function, [valueOf] returns the object itself, and the
    host raises its TypeError before the error is made. *)
Definition keyNotFound {V : Type} (props : gmap string V) (key : string) : exn :=
  if bool_decide (is_Some (props !! "toString")) then PropsNotPrimitive
  else KeyNotFound key.

(** The callback of line 73, on a key and the value [data[key]]. *)
Definition checkKey (validate : value → schemaRef → result)
    (props : gmap string schema) (key : string) (v : value) : result :=
  match get_property props key with
  | Some schemaType => validate v schemaType
  | None => Throw (keyNotFound props key)
  end.

(** The test of line 71 before its [throw]:
    [requiredProps && requiredProps.length && !isInEvery(dataKeys, requiredProps)]. *)
Definition requiredMissing (requiredProps : option (list string)) (dataKeys : list string) : bool :=
  match requiredProps with
  | Some req => bool_decide (length req ≠ 0) && negb (isInEvery dataKeys req)
  | None => false
  end.

(** [dataKeys.forEach(key => ...)], lines 73-78: the own keys of [data] in
    enumeration order, each with [data[key]]. *)
Definition visitKeys (validate : value → schemaRef → result)
    (props : gmap string schema) (data : value) : result :=
  match data with
  | VObject entries => forEach (λ '(key, v) _, checkKey validate props key v) 0 entries
  | VArray elems => forEach (λ v i, checkKey validate props (pretty i) v) 0 elems
  | _ => Ok
  end.

(** [objValidator.validate], lines 64-80; [validate] is
    [new SchemaService().validate]. *)
Definition objValidator_validate (validate : value → schemaRef → result)
    (data : value) (schema : schemaRef) : result :=
  if bool_decide (typeof data ≠ "object")
     || bool_decide (schema_type schema ≠ Some "object")
  then mismatch data schema
  else
    match schema with
    | Node (ObjectSchema props requiredProps) =>
        match Object_keys data with
        | None => Throw KeysOfNull
        | Some dataKeys =>
            if requiredMissing requiredProps dataKeys
            then Throw (MissingRequired (default [] requiredProps))
            else visitKeys validate props data
        end
    | _ => mismatch data schema
    end.

(** [arrayValidator.validate], lines 86-91. *)
Definition arrayValidator_validate (validate : value → schemaRef → result)
    (data : value) (schema : schemaRef) : result :=
  if negb (isArray data) || bool_decide (schema_type schema ≠ Some "array")
  then mismatch data schema
  else
    match schema, data with
    | Node (ArraySchema items), VArray elems =>
        forEach (λ datum _, validate datum (Node items)) 0 elems
    | _, _ => mismatch data schema
    end.

(** ** Factory and service *)

(** The classes implementing [Validator]. *)
Inductive Validator : Type :=
  | objValidator
  | arrayValidator
  | stringValidator
  | booleanValidator
  | numberValidator.

(** [SchemaFactory.getSchemaInstance], lines 120-133: a [switch] on
    [schema.type] whose [default] is the object validator. *)
Definition validatorFor (type : option string) : Validator :=
  match type with
  | Some "array" => arrayValidator
  | Some "boolean" => booleanValidator
  | Some "number" => numberValidator
  | Some "string" => stringValidator
  | _ => objValidator
  end.

Definition getSchemaInstance (schema : schemaRef) : Validator :=
  validatorFor (schema_type schema).

(** [SchemaService.validate], lines 140-142, with the method call resolved
    on the instance the factory returns. *)
Fixpoint SchemaService_validate (data : value) (schema : schemaRef) {struct data} : result :=
  match getSchemaInstance schema with
  | objValidator => objValidator_validate SchemaService_validate data schema
  | arrayValidator => arrayValidator_validate SchemaService_validate data schema
  | stringValidator => stringValidator_validate data schema
  | booleanValidator => booleanValidator_validate data schema
  | numberValidator => numberValidator_validate data schema
  end.

(** [validateSchema], lines 152-154: the entry point, on a schema of the
    declared union. *)
Definition validateSchema (data : value) (schema : schema) : result :=
  SchemaService_validate data (Node schema).

(** ** Predicates on values and schemas *)

(** The key is declared in [properties] and its value passes the sub-schema. *)
Definition entry_ok (props : gmap string schema) (entry : string * value) : Prop :=
  ∃ s, props !! entry.1 = Some s ∧ validateSchema entry.2 s = Ok.

(** Every name of an optional required list is a key. *)
Definition required_present (req : option (list string)) (dataKeys : list string) : Prop :=
  ∀ l name, req = Some l → name ∈ l → name ∈ dataKeys.

(** ** The schemas of the source's comments and README *)

Definition nameSchema : schema :=
  ObjectSchema {[ "name" := StringSchema None ]} None.

Definition colours : schema :=
  StringSchema (Some ["red"; "green"; "blue"]).

Definition aNumbers : schema :=
  ArraySchema (ObjectSchema {[ "a" := NumberSchema ]} None).

(** * The validator on the object graph

    The validator receives references: objects and arrays live in the
    heap, may be shared, and could be written to.  This second embedding
    keeps the heap explicit: every read of the source goes through the
    store, a call to the service consumes one unit of recursion depth, and
    the outcome comes with the store the call leaves behind. *)

Module Graph.

(** References to heap objects. *)
Definition loc : Type := nat.

(** A value as a variable holds it: a primitive, or a reference. *)
Inductive jsval : Type :=
  | JString (s : string)
  | JNumber (x : float)
  | JBoolean (b : bool)
  | JNull
  | JUndefined
  | JRef (l : loc).

(** A data object of the heap: a plain object with its own properties in
    enumeration order, or an array. *)
Inductive dataObject : Type :=
  | PlainObject (entries : list (string * jsval))
  | ArrayObject (elems : list jsval).

(** A schema object of the heap; sub-schemas are references, so schema
    objects may be shared, and nothing in the store rules out a cycle. *)
Inductive schemaObject : Type :=
  | StringNode (enum : option (list string))
  | NumberNode
  | BooleanNode
  | ObjectNode (properties : gmap string loc) (required : option (list string))
  | ArrayNode (items : loc).

Record store : Type := Store {
  objects : gmap loc dataObject;
  schemas : gmap loc schemaObject
}.

(** What reaches the [schema] parameter: a reference to a schema object, or
    a member inherited from [Object.prototype]. *)
Inductive schemaArg : Type :=
  | SchemaAt (l : loc)
  | Inherited (name : string).

(** How a computation ends: it returns, it throws, it reads a reference
    the store does not hold (or a field the schema object lacks), or the
    recursion depth it was given is used up. *)
Inductive outcome (A : Type) : Type :=
  | Returned (a : A)
  | Threw (e : exn)
  | Stuck
  | OutOfFuel.
Arguments Returned {A} a.
Arguments Threw {A} e.
Arguments Stuck {A}.
Arguments OutOfFuel {A}.

(** Computations over the store. *)
Definition M (A : Type) : Type := store → outcome A * store.

Definition ret {A : Type} (a : A) : M A := λ σ, (Returned a, σ).

Definition bind {A B : Type} (m : M A) (k : A → M B) : M B :=
  λ σ,
    match m σ with
    | (Returned a, σ') => k a σ'
    | (Threw e, σ') => (Threw e, σ')
    | (Stuck, σ') => (Stuck, σ')
    | (OutOfFuel, σ') => (OutOfFuel, σ')
    end.

Definition throw {A : Type} (e : exn) : M A := λ σ, (Threw e, σ).
Definition stuck {A : Type} : M A := λ σ, (Stuck, σ).
Definition out_of_fuel {A : Type} : M A := λ σ, (OutOfFuel, σ).

Declare Scope graph_scope.
Delimit Scope graph_scope with graph.
Notation "'let*' x ':=' m 'in' k" := (bind m (λ x, k))
  (at level 10, x name, m at level 100, k at level 200,
   format "'[' 'let*'  x  ':='  m  'in' ']'  '/' k") : graph_scope.
#[local] Open Scope graph_scope.

(** Reading the object behind a reference. *)
Definition deref (l : loc) : M dataObject :=
  λ σ, match objects σ !! l with
       | Some o => (Returned o, σ)
       | None => (Stuck, σ)
       end.

Definition schema_at (l : loc) : M schemaObject :=
  λ σ, match schemas σ !! l with
       | Some o => (Returned o, σ)
       | None => (Stuck, σ)
       end.

(** [typeof data]: every reference is an object. *)
Definition typeof (data : jsval) : string :=
  match data with
  | JString _ => "string"
  | JNumber _ => "number"
  | JBoolean _ => "boolean"
  | JUndefined => "undefined"
  | JNull | JRef _ => "object"
  end.

(** [Array.isArray(data)] *)
Definition isArray (data : jsval) : M bool :=
  match data with
  | JRef l =>
      let* o := deref l in
      ret (match o with ArrayObject _ => true | PlainObject _ => false end)
  | _ => ret false
  end.

(** The own enumerable properties of a data object; those of an array are
    its elements under their indices. *)
Definition ownEntries (o : dataObject) : list (string * jsval) :=
  match o with
  | PlainObject entries => entries
  | ArrayObject elems => imap (λ i x, (pretty i, x)) elems
  end.

(** [Object.keys(data)] *)
Definition Object_keys (data : jsval) : M (list string) :=
  match data with
  | JRef l => let* o := deref l in ret (ownEntries o).*1
  | JNull | JUndefined => throw KeysOfNull
  | JString _ | JNumber _ | JBoolean _ => ret []
  end.

(** [data[key]] *)
Definition get (data : jsval) (key : string) : M jsval :=
  match data with
  | JRef l =>
      let* o := deref l in
      ret (default JUndefined ((list_to_map (ownEntries o) : gmap string jsval) !! key))
  | _ => ret JUndefined
  end.

(** The elements [data.forEach] runs over. *)
Definition elements (data : jsval) : M (list jsval) :=
  match data with
  | JRef l =>
      let* o := deref l in
      match o with
      | ArrayObject elems => ret elems
      | PlainObject _ => stuck
      end
  | _ => stuck
  end.

(** The [type] field of a schema object. *)
Definition node_type (o : schemaObject) : string :=
  match o with
  | StringNode _ => "string"
  | NumberNode => "number"
  | BooleanNode => "boolean"
  | ObjectNode _ _ => "object"
  | ArrayNode _ => "array"
  end.

(** [schema.type]; [None] is [undefined]. *)
Definition schema_type (schema : schemaArg) : M (option string) :=
  match schema with
  | SchemaAt l => let* o := schema_at l in ret (Some (node_type o))
  | Inherited _ => ret None
  end.

(** [schema.enum], [schema.properties], [schema.required], [schema.items],
    read where the type test has established the kind of [schema]. *)
Definition schema_enum (schema : schemaArg) : M (option (list string)) :=
  match schema with
  | SchemaAt l =>
      let* o := schema_at l in
      match o with StringNode enum => ret enum | _ => ret None end
  | Inherited _ => ret None
  end.

Definition schema_properties (schema : schemaArg) : M (gmap string loc) :=
  match schema with
  | SchemaAt l =>
      let* o := schema_at l in
      match o with ObjectNode props _ => ret props | _ => stuck end
  | Inherited _ => stuck
  end.

Definition schema_required (schema : schemaArg) : M (option (list string)) :=
  match schema with
  | SchemaAt l =>
      let* o := schema_at l in
      match o with ObjectNode _ req => ret req | _ => ret None end
  | Inherited _ => ret None
  end.

Definition schema_items (schema : schemaArg) : M loc :=
  match schema with
  | SchemaAt l =>
      let* o := schema_at l in
      match o with ArrayNode items => ret items | _ => stuck end
  | Inherited _ => stuck
  end.

(** [props[key]] *)
Definition get_property (props : gmap string loc) (key : string) : option schemaArg :=
  match props !! key with
  | Some l => Some (SchemaAt l)
  | None =>
      if bool_decide (key ∈ Object_prototype_keys) then Some (Inherited key) else None
  end.

(** [arr.forEach(callback)] *)
Definition forEach {A : Type} (callback : A → nat → M unit) : nat → list A → M unit :=
  fix go (i : nat) (arr : list A) : M unit :=
    match arr with
    | [] => ret ()
    | x :: rest => let* _ := callback x i in go (S i) rest
    end.

(** The error of lines 65, 87, 97, 106 and 112. *)
Definition mismatch (data : jsval) (ty : option string) : M unit :=
  throw (DataTypeMismatch (typeof data) ty).

(** [stringValidator.validate], lines 96-101. *)
Definition stringValidator_validate (data : jsval) (schema : schemaArg) : M unit :=
  let* ty := schema_type schema in
  if bool_decide (typeof data ≠ "string")
     || bool_decide (ty ≠ Some "string")
     || bool_decide (Some (typeof data) ≠ ty)
  then mismatch data ty
  else
    let* enum := schema_enum schema in
    match enum, data with
    | Some l, JString s => if includes l s then ret () else throw NotInEnum
    | _, _ => ret ()
    end.

(** [booleanValidator.validate], lines 105-107. *)
Definition booleanValidator_validate (data : jsval) (schema : schemaArg) : M unit :=
  let* ty := schema_type schema in
  if bool_decide (typeof data ≠ "boolean") || bool_decide (Some (typeof data) ≠ ty)
  then mismatch data ty
  else ret ().

(** [numberValidator.validate], lines 111-113. *)
Definition numberValidator_validate (data : jsval) (schema : schemaArg) : M unit :=
  let* ty := schema_type schema in
  if bool_decide (typeof data ≠ "number") || bool_decide (Some (typeof data) ≠ ty)
  then mismatch data ty
  else ret ().

(** The callback of line 73. *)
Definition checkKey (validate : jsval → schemaArg → M unit)
    (props : gmap string loc) (data : jsval) (key : string) : M unit :=
  match get_property props key with
  | Some schemaType => let* v := get data key in validate v schemaType
  | None => throw (keyNotFound props key)
  end.

(** [objValidator.validate], lines 64-80. *)
Definition objValidator_validate (validate : jsval → schemaArg → M unit)
    (data : jsval) (schema : schemaArg) : M unit :=
  let* ty := schema_type schema in
  if bool_decide (typeof data ≠ "object") || bool_decide (ty ≠ Some "object")
  then mismatch data ty
  else
    let* props := schema_properties schema in
    let* requiredProps := schema_required schema in
    let* dataKeys := Object_keys data in
    if requiredMissing requiredProps dataKeys
    then throw (MissingRequired (default [] requiredProps))
    else forEach (λ key _, checkKey validate props data key) 0 dataKeys.

(** [arrayValidator.validate], lines 86-91. *)
Definition arrayValidator_validate (validate : jsval → schemaArg → M unit)
    (data : jsval) (schema : schemaArg) : M unit :=
  let* isArr := isArray data in
  let* ty := schema_type schema in
  if negb isArr || bool_decide (ty ≠ Some "array")
  then mismatch data ty
  else
    let* items := schema_items schema in
    let* elems := elements data in
    forEach (λ datum _, validate datum (SchemaAt items)) 0 elems.

(** [SchemaFactory.getSchemaInstance], lines 120-133. *)
Definition getSchemaInstance (schema : schemaArg) : M Validator :=
  let* ty := schema_type schema in ret (validatorFor ty).

(** [SchemaService.validate], lines 140-142; [fuel] bounds the depth of the
    nested calls. *)
Fixpoint SchemaService_validate (fuel : nat) (data : jsval) (schema : schemaArg) : M unit :=
  match fuel with
  | 0 => out_of_fuel
  | S fuel' =>
      let* instance := getSchemaInstance schema in
      match instance with
      | objValidator => objValidator_validate (SchemaService_validate fuel') data schema
      | arrayValidator => arrayValidator_validate (SchemaService_validate fuel') data schema
      | stringValidator => stringValidator_validate data schema
      | booleanValidator => booleanValidator_validate data schema
      | numberValidator => numberValidator_validate data schema
      end
  end.

(** [validateSchema], lines 152-154. *)
Definition validateSchema (fuel : nat) (data : jsval) (schema : loc) : M unit :=
  SchemaService_validate fuel data (SchemaAt schema).

(** ** Two properties of computations *)

(** A computation that leaves every store as it found it. *)
Definition reads_only {A : Type} (m : M A) : Prop := ∀ σ, (m σ).2 = σ.

(** Whatever [m] yields without running out of depth, [m'] yields too. *)
Definition approx {A : Type} (m m' : M A) : Prop :=
  ∀ σ r σ', m σ = (r, σ') → r ≠ OutOfFuel → m' σ = (r, σ').

End Graph.

(** * Finite trees in the store *)

(** The nesting depth of a schema. *)
Fixpoint schema_depth (s : schema) : nat :=
  match s with
  | ObjectSchema props _ =>
      S (map_fold (λ _ s' d, schema_depth s' `max` d) 0 props)
  | ArraySchema items => S (schema_depth items)
  | StringSchema _ | NumberSchema | BooleanSchema => 0
  end.

(** The outcome of a call that returns or throws. *)
Definition outcome_of (r : result) : Graph.outcome unit :=
  match r with
  | Ok => Graph.Returned ()
  | Throw e => Graph.Threw e
  end.

(** The schema object at [l] unfolds to the finite tree [s]: the schema
    reachable from [l] is acyclic. *)
Inductive schema_tree (σ : Graph.store) : Graph.loc → schema → Prop :=
  | tree_string l enum :
      Graph.schemas σ !! l = Some (Graph.StringNode enum) →
      schema_tree σ l (StringSchema enum)
  | tree_number l :
      Graph.schemas σ !! l = Some Graph.NumberNode →
      schema_tree σ l NumberSchema
  | tree_boolean l :
      Graph.schemas σ !! l = Some Graph.BooleanNode →
      schema_tree σ l BooleanSchema
  | tree_object l refs props req :
      Graph.schemas σ !! l = Some (Graph.ObjectNode refs req) →
      (∀ key, option_Forall2 (schema_tree σ) (refs !! key) (props !! key)) →
      schema_tree σ l (ObjectSchema props req)
  | tree_array l ref items :
      Graph.schemas σ !! l = Some (Graph.ArrayNode ref) →
      schema_tree σ ref items →
      schema_tree σ l (ArraySchema items).

(** The value [data] unfolds to the finite tree [v]; the own keys of an
    object are pairwise distinct. *)
Inductive value_tree (σ : Graph.store) : Graph.jsval → value → Prop :=
  | tree_VString s : value_tree σ (Graph.JString s) (VString s)
  | tree_VNumber x : value_tree σ (Graph.JNumber x) (VNumber x)
  | tree_VBoolean b : value_tree σ (Graph.JBoolean b) (VBoolean b)
  | tree_VNull : value_tree σ Graph.JNull VNull
  | tree_VUndefined : value_tree σ Graph.JUndefined VUndefined
  | tree_VObject l refs entries :
      Graph.objects σ !! l = Some (Graph.PlainObject refs) →
      NoDup refs.*1 →
      Forall2 (λ ref entry, ref.1 = entry.1 ∧ value_tree σ ref.2 entry.2) refs entries →
      value_tree σ (Graph.JRef l) (VObject entries)
  | tree_VArray l refs elems :
      Graph.objects σ !! l = Some (Graph.ArrayObject refs) →
      Forall2 (value_tree σ) refs elems →
      value_tree σ (Graph.JRef l) (VArray elems).

(** ** Example stores *)

(** The array [[{a: 5}, {a: "hello"}]] and the schema of arrays of objects
    with a numeric [a]. *)
Definition exampleStore : Graph.store :=
  Graph.Store
    {[ 1 := Graph.ArrayObject [Graph.JRef 2; Graph.JRef 3];
       2 := Graph.PlainObject [("a", Graph.JNumber 5)];
       3 := Graph.PlainObject [("a", Graph.JString "hello")] ]}
    {[ 1 := Graph.ArrayNode 2;
       2 := Graph.ObjectNode {[ "a" := 3 ]} None;
       3 := Graph.NumberNode ]}.

(** An array that contains itself, and an Array schema that is its own
    [items]. *)
Definition cyclicStore : Graph.store :=
  Graph.Store {[ 1 := Graph.ArrayObject [Graph.JRef 1] ]} {[ 1 := Graph.ArrayNode 1 ]}.

(** * Further notions on values and schemas *)

(** No [null] anywhere in the value. *)
Fixpoint null_free (v : value) : bool :=
  match v with
  | VNull => false
  | VObject entries => forallb (λ '(_, w), null_free w) entries
  | VArray elems => forallb null_free elems
  | VString _ | VNumber _ | VBoolean _ | VUndefined => true
  end.

(** The own properties of an array as [Object.keys] and [data[key]] show
    them: each element under its index in decimal. *)
Definition indexEntries (elems : list value) : list (string * value) :=
  imap (λ i v, (pretty i, v)) elems.

(** [n] levels of nesting around a schema and around a value: an array of
    objects with the one required property [key]. *)
Fixpoint nestSchema (key : string) (n : nat) (s : schema) : schema :=
  match n with
  | 0 => s
  | S n' => ArraySchema (ObjectSchema {[ key := nestSchema key n' s ]} (Some [key]))
  end.

Fixpoint nestValue (key : string) (n : nat) (v : value) : value :=
  match n with
  | 0 => v
  | S n' => VArray [VObject [(key, nestValue key n' v)]]
  end.

(** [s'] is a node of the schema [s]: [s] itself, a property of a node, or
    the [items] of a node. *)
Inductive occurs_in (s' : schema) : schema → Prop :=
  | occurs_here : occurs_in s' s'
  | occurs_property props req key s :
      props !! key = Some s → occurs_in s' s → occurs_in s' (ObjectSchema props req)
  | occurs_items items :
      occurs_in s' items → occurs_in s' (ArraySchema items).

(** No Object node of the schema declares a property named [toString]. *)
Definition no_toString (s : schema) : Prop :=
  ∀ props req, occurs_in (ObjectSchema props req) s → props !! "toString" = None.

(** The part of the schema [s] that an exception points at. *)
Definition raised_by (s : schema) (e : exn) : Prop :=
  match e with
  | DataTypeMismatch _ (Some type) =>
      ∃ s', occurs_in s' s ∧ schema_type (Node s') = Some type
  | DataTypeMismatch _ None =>
      ∃ props req key, occurs_in (ObjectSchema props req) s
        ∧ props !! key = None ∧ key ∈ Object_prototype_keys
  | MissingRequired req =>
      req ≠ [] ∧ ∃ props, occurs_in (ObjectSchema props (Some req)) s
  | KeyNotFound key =>
      ∃ props req, occurs_in (ObjectSchema props req) s ∧ props !! key = None
  | NotInEnum => ∃ enum, occurs_in (StringSchema (Some enum)) s
  | KeysOfNull => ∃ props req, occurs_in (ObjectSchema props req) s
  | PropsNotPrimitive =>
      ∃ props req, occurs_in (ObjectSchema props req) s ∧ is_Some (props !! "toString")
  end.

(** The nesting depth of a value. *)
Fixpoint value_depth (v : value) : nat :=
  match v with
  | VObject entries => S (foldr (λ '(_, w) d, value_depth w `max` d) 0 entries)
  | VArray elems => S (foldr (λ w d, value_depth w `max` d) 0 elems)
  | VString _ | VNumber _ | VBoolean _ | VNull | VUndefined => 0
  end.

(** The computation ends on the store [σ] within the recursion depth it was
    given: it returns, throws, or gets stuck. *)
Definition halts {A : Type} (σ : Graph.store) (m : Graph.M A) : Prop :=
  (m σ).1 ≠ Graph.OutOfFuel.

(** An array that contains itself, with the finite schema of arrays of
    arrays of numbers. *)
Definition selfArrayStore : Graph.store :=
  Graph.Store
    {[ 1 := Graph.ArrayObject [Graph.JRef 1] ]}
    {[ 1 := Graph.ArrayNode 2; 2 := Graph.ArrayNode 3; 3 := Graph.NumberNode ]}.

(** The finite array [[[]]], with an Array schema that is its own [items]. *)
Definition selfSchemaStore : Graph.store :=
  Graph.Store
    {[ 1 := Graph.ArrayObject [Graph.JRef 2]; 2 := Graph.ArrayObject [] ]}
    {[ 1 := Graph.ArrayNode 1 ]}.

(** An array whose second element is a reference that leads nowhere, with
    the schema of arrays of numbers. *)
Definition danglingStore : Graph.store :=
  Graph.Store
    {[ 1 := Graph.ArrayObject [Graph.JString "x"; Graph.JRef 9] ]}
    {[ 1 := Graph.ArrayNode 2; 2 := Graph.NumberNode ]}.

(** The values an Object, Array, String, Number or Boolean schema lets
    through, read off the tests of the five validators: no test but these
    stands between a value and a normal return. *)
Inductive conforms : value → schema → Prop :=
  | conforms_string s enum :
      (∀ l, enum = Some l → s ∈ l) → conforms (VString s) (StringSchema enum)
  | conforms_number x : conforms (VNumber x) NumberSchema
  | conforms_boolean b : conforms (VBoolean b) BooleanSchema
  | conforms_object entries props req :
      required_present req entries.*1 →
      Forall (λ entry, ∃ s, props !! entry.1 = Some s ∧ conforms entry.2 s) entries →
      conforms (VObject entries) (ObjectSchema props req)
  | conforms_indices elems props req :
      required_present req (indexEntries elems).*1 →
      Forall (λ entry, ∃ s, props !! entry.1 = Some s ∧ conforms entry.2 s)
        (indexEntries elems) →
      conforms (VArray elems) (ObjectSchema props req)
  | conforms_array elems items :
      Forall (λ v, conforms v items) elems → conforms (VArray elems) (ArraySchema items).

(** * Properties of the tree validator *)

(** ** The examples of the source's comments and README *)

Example string_any : validateSchema (VString "hello") (StringSchema None) = Ok.
Proof. reflexivity. Qed.

Example string_not_number :
  validateSchema (VNumber 5) (StringSchema None)
  = Throw (DataTypeMismatch "number" (Some "string")).
Proof. reflexivity. Qed.

Example enum_red : validateSchema (VString "red") colours = Ok.
Proof. reflexivity. Qed.

Example enum_yellow : validateSchema (VString "yellow") colours = Throw NotInEnum.
Proof. reflexivity. Qed.

Example object_kevin :
  validateSchema (VObject [("name", VString "Kevin")]) nameSchema = Ok.
Proof. vm_compute. reflexivity. Qed.

Example object_empty : validateSchema (VObject []) nameSchema = Ok.
Proof. reflexivity. Qed.

Example object_name_5 :
  validateSchema (VObject [("name", VNumber 5)]) nameSchema
  = Throw (DataTypeMismatch "number" (Some "string")).
Proof. vm_compute. reflexivity. Qed.

Example object_hello :
  validateSchema (VObject [("hello", VString "world")]) nameSchema
  = Throw (KeyNotFound "hello").
Proof. vm_compute. reflexivity. Qed.

Example object_required :
  validateSchema (VObject []) (ObjectSchema {[ "name" := StringSchema None ]} (Some ["name"]))
  = Throw (MissingRequired ["name"]).
Proof. reflexivity. Qed.

Example array_of_objects :
  validateSchema
    (VArray [VObject [("a", VNumber 5)]; VObject [("a", VNumber 2)];
             VObject [("a", VNumber 10)]]) aNumbers = Ok.
Proof. vm_compute. reflexivity. Qed.

Example array_second_fails :
  validateSchema
    (VArray [VObject [("a", VNumber 5)]; VObject [("a", VString "hello")]]) aNumbers
  = Throw (DataTypeMismatch "string" (Some "number")).
Proof. vm_compute. reflexivity. Qed.

(** ** Unfolding the service and the helpers *)

Lemma SchemaService_validate_unfold (data : value) (schema : schemaRef) :
  SchemaService_validate data schema =
  match getSchemaInstance schema with
  | objValidator => objValidator_validate SchemaService_validate data schema
  | arrayValidator => arrayValidator_validate SchemaService_validate data schema
  | stringValidator => stringValidator_validate data schema
  | booleanValidator => booleanValidator_validate data schema
  | numberValidator => numberValidator_validate data schema
  end.
Proof. destruct data; reflexivity. Qed.

Lemma validate_string (data : value) (enum : option (list string)) :
  validateSchema data (StringSchema enum)
  = stringValidator_validate data (Node (StringSchema enum)).
Proof. unfold validateSchema. by rewrite SchemaService_validate_unfold. Qed.

Lemma validate_number (data : value) :
  validateSchema data NumberSchema = numberValidator_validate data (Node NumberSchema).
Proof. unfold validateSchema. by rewrite SchemaService_validate_unfold. Qed.

Lemma validate_boolean (data : value) :
  validateSchema data BooleanSchema = booleanValidator_validate data (Node BooleanSchema).
Proof. unfold validateSchema. by rewrite SchemaService_validate_unfold. Qed.

Lemma validate_object (data : value) (props : gmap string schema) (req : option (list string)) :
  validateSchema data (ObjectSchema props req)
  = objValidator_validate SchemaService_validate data (Node (ObjectSchema props req)).
Proof. unfold validateSchema. by rewrite SchemaService_validate_unfold. Qed.

Lemma validate_array (data : value) (items : schema) :
  validateSchema data (ArraySchema items)
  = arrayValidator_validate SchemaService_validate data (Node (ArraySchema items)).
Proof. unfold validateSchema. by rewrite SchemaService_validate_unfold. Qed.

(** An inherited member of [Object.prototype] used as a schema is sent to the
    object validator by the [default] of the factory and fails its test of
    [schema.type]. *)
Lemma validate_proto_member (data : value) (name : string) :
  SchemaService_validate data (ProtoMember name)
  = Throw (DataTypeMismatch (typeof data) None).
Proof. rewrite SchemaService_validate_unfold. by destruct data. Qed.

Lemma includes_spec (arr : list string) (v : string) :
  includes arr v = true ↔ v ∈ arr.
Proof. unfold includes. by rewrite bool_decide_eq_true. Qed.

Lemma isInEvery_spec (arr target : list string) :
  isInEvery arr target = true ↔ ∀ v, v ∈ target → v ∈ arr.
Proof.
  unfold isInEvery. rewrite forallb_forall. setoid_rewrite includes_spec.
  by setoid_rewrite list_elem_of_In.
Qed.

Lemma requiredMissing_spec (req dataKeys : list string) :
  req ≠ [] →
  requiredMissing (Some req) dataKeys = true ↔ ∃ name, name ∈ req ∧ name ∉ dataKeys.
Proof.
  intros Hne. unfold requiredMissing.
  rewrite andb_true_iff, bool_decide_eq_true, negb_true_iff.
  split.
  - intros [_ Hmiss].
    destruct (decide (Forall (λ v, v ∈ dataKeys) req)) as [Hall | Hex].
    + rewrite Forall_forall in Hall. apply isInEvery_spec in Hall. congruence.
    + apply not_Forall_Exists in Hex; [| intros v; apply _].
      apply Exists_exists in Hex. naive_solver.
  - intros (name & Hin & Hnot). split.
    + by destruct req.
    + apply not_true_is_false. rewrite isInEvery_spec. naive_solver.
Qed.

Lemma requiredMissing_absent_or_empty (dataKeys : list string) :
  requiredMissing None dataKeys = false ∧ requiredMissing (Some []) dataKeys = false.
Proof. done. Qed.

(** ** The loop [forEach] *)

Section forEach_facts.
Context {A : Type} (callback : A → nat → result).

Lemma forEach_ok (i : nat) (arr : list A) :
  forEach callback i arr = Ok ↔ ∀ j x, arr !! j = Some x → callback x (i + j) = Ok.
Proof.
  revert i. induction arr as [| x rest IH]; intros i; simpl.
  - split; [intros _ j y Hj | done]. by rewrite lookup_nil in Hj.
  - destruct (callback x i) eqn:Hx.
    + rewrite IH. split.
      * intros Hrest [| j] y Hj; simplify_eq/=.
        -- by rewrite Nat.add_0_r.
        -- replace (i + S j) with (S i + j) by lia. by apply Hrest.
      * intros Hall j y Hj. replace (S i + j) with (i + S j) by lia.
        by apply Hall.
    + split; [done |]. intros Hall. specialize (Hall 0 x eq_refl).
      rewrite Nat.add_0_r in Hall. congruence.
Qed.

(** Fail-fast: the loop throws what the callback throws on the first
    element it fails on, whatever follows that element. *)
Lemma forEach_first_throw (i : nat) (pre post : list A) (x : A) (e : exn) :
  (∀ j y, pre !! j = Some y → callback y (i + j) = Ok) →
  callback x (i + length pre) = Throw e →
  forEach callback i (pre ++ x :: post) = Throw e.
Proof.
  revert i. induction pre as [| y pre IH]; intros i Hpre Hx; simpl in *.
  - rewrite Nat.add_0_r in Hx. by rewrite Hx.
  - pose proof (Hpre 0 y eq_refl) as Hy. rewrite Nat.add_0_r in Hy. rewrite Hy.
    apply IH.
    + intros j z Hj. replace (S i + j) with (i + S j) by lia. by apply Hpre.
    + by replace (S i + length pre) with (i + S (length pre)) by lia.
Qed.

(** A throwing loop has a first failing element. *)
Lemma forEach_throw_inv (i : nat) (arr : list A) (e : exn) :
  forEach callback i arr = Throw e →
  ∃ pre x post, arr = pre ++ x :: post
    ∧ (∀ j y, pre !! j = Some y → callback y (i + j) = Ok)
    ∧ callback x (i + length pre) = Throw e.
Proof.
  revert i. induction arr as [| x rest IH]; intros i; simpl; [done |].
  destruct (callback x i) eqn:Hx.
  - intros (pre & y & post & -> & Hpre & Hy)%IH.
    exists (x :: pre), y, post. split_and!; [done | |].
    + intros [| j] z Hj; simplify_eq/=.
      * by rewrite Nat.add_0_r.
      * replace (i + S j) with (S i + j) by lia. by apply Hpre.
    + simpl. by replace (i + S (length pre)) with (S i + length pre) by lia.
  - intros [= ->]. exists [], x, rest. split_and!; [done | | by rewrite Nat.add_0_r].
    intros j y Hj. by rewrite lookup_nil in Hj.
Qed.
End forEach_facts.

(** ** String, number and boolean checks *)

Lemma typeof_string (data : value) : typeof data = "string" ↔ ∃ s, data = VString s.
Proof.
  split; [| by intros [s ->]]. destruct data; try done. eauto.
Qed.

Lemma stringValidator_eq (data : value) (enum : option (list string)) :
  validateSchema data (StringSchema enum) =
  match data with
  | VString s =>
      match enum with
      | Some l => if bool_decide (s ∈ l) then Ok else Throw NotInEnum
      | None => Ok
      end
  | _ => Throw (DataTypeMismatch (typeof data) (Some "string"))
  end.
Proof. rewrite validate_string. by destruct data, enum. Qed.

Lemma numberValidator_eq (data : value) :
  validateSchema data NumberSchema =
  if bool_decide (typeof data = "number") then Ok
  else Throw (DataTypeMismatch (typeof data) (Some "number")).
Proof. rewrite validate_number. by destruct data. Qed.

Lemma booleanValidator_eq (data : value) :
  validateSchema data BooleanSchema =
  if bool_decide (typeof data = "boolean") then Ok
  else Throw (DataTypeMismatch (typeof data) (Some "boolean")).
Proof. rewrite validate_boolean. by destruct data. Qed.

(** C4.  A string validated against a String schema with an [enum] list
    fails with EnumViolation exactly when it is not an element of the list
    (equality of strings, no coercion) and succeeds otherwise; the outcome is
    the same for every permutation of the list and is never TypeMismatch. *)
Theorem C4_enum_membership (s : string) (enum : list string) :
  (fails_with EnumViolation (validateSchema (VString s) (StringSchema (Some enum))) ↔ s ∉ enum)
  ∧ (validateSchema (VString s) (StringSchema (Some enum)) = Ok ↔ s ∈ enum)
  ∧ (∀ enum', enum ≡ₚ enum' →
       validateSchema (VString s) (StringSchema (Some enum'))
       = validateSchema (VString s) (StringSchema (Some enum)))
  ∧ ¬ fails_with TypeMismatch (validateSchema (VString s) (StringSchema (Some enum))).
Proof.
  rewrite stringValidator_eq. split_and!.
  - case_bool_decide; simpl; naive_solver.
  - case_bool_decide; naive_solver.
  - intros enum' Hperm. rewrite stringValidator_eq.
    rewrite (bool_decide_ext (s ∈ enum') (s ∈ enum)); [done |].
    by rewrite Hperm.
  - case_bool_decide; simpl; [tauto | congruence].
Qed.

Lemma C4_enum_membership_witness :
  validateSchema (VString "red") (StringSchema (Some ["blue"; "red"; "green"]))
  = validateSchema (VString "red") (StringSchema (Some ["red"; "green"; "blue"])).
Proof.
  apply (C4_enum_membership "red" ["red"; "green"; "blue"]).
  symmetry. exact (Permutation_cons_append ["red"; "green"] "blue").
Defined.

(** The check is case-sensitive. *)
Example enum_case_sensitive :
  validateSchema (VString "Red") colours = Throw NotInEnum.
Proof. reflexivity. Qed.

(** An empty [enum] list is still a list: no string passes it. *)
Example enum_empty (s : string) :
  validateSchema (VString s) (StringSchema (Some [])) = Throw NotInEnum.
Proof. reflexivity. Qed.

(** C5.  The three primitive checks decide by [typeof data] alone: a Number
    (Boolean) schema accepts exactly the values whose type is "number"
    ("boolean"), whatever the number; a String schema accepts exactly the
    strings, restricted to the listed ones when it has an [enum]; a value of any
    other type fails with TypeMismatch. *)
Theorem C5_primitive_checks (data : value) :
  (validateSchema data NumberSchema = Ok ↔ typeof data = "number")
  ∧ (typeof data ≠ "number" → fails_with TypeMismatch (validateSchema data NumberSchema))
  ∧ (validateSchema data BooleanSchema = Ok ↔ typeof data = "boolean")
  ∧ (typeof data ≠ "boolean" → fails_with TypeMismatch (validateSchema data BooleanSchema))
  ∧ (∀ enum, validateSchema data (StringSchema enum) = Ok
       ↔ ∃ s, data = VString s ∧ ∀ l, enum = Some l → s ∈ l)
  ∧ (∀ enum, typeof data ≠ "string" →
       fails_with TypeMismatch (validateSchema data (StringSchema enum))).
Proof.
  rewrite numberValidator_eq, booleanValidator_eq. split_and!.
  - case_bool_decide; naive_solver.
  - intros ?. by rewrite bool_decide_eq_false_2.
  - case_bool_decide; naive_solver.
  - intros ?. by rewrite bool_decide_eq_false_2.
  - intros enum. rewrite stringValidator_eq.
    destruct data as [s | | | | | |];
      try (split; [done | by intros (? & ? & _)]).
    destruct enum as [l |].
    + case_bool_decide as Hin; split; try done.
      * intros _. exists s. split; [done |]. by intros ? [= <-].
      * intros (? & [= <-] & Hl). destruct Hin. by apply Hl.
    + split; [| done]. intros _. by exists s.
  - intros enum Hty. rewrite stringValidator_eq. by destruct data.
Qed.

(** No constraint beyond the type: every number, NaN and the infinities
    included, passes a Number schema. *)
Lemma number_any (x : float) : validateSchema (VNumber x) NumberSchema = Ok.
Proof. reflexivity. Qed.

Lemma C5_primitive_checks_witness :
  fails_with TypeMismatch (validateSchema (VString "5") NumberSchema)
  ∧ fails_with TypeMismatch (validateSchema VNull BooleanSchema)
  ∧ fails_with TypeMismatch (validateSchema (VNumber 5) (StringSchema None)).
Proof.
  split_and!.
  - apply (C5_primitive_checks (VString "5")). vm_compute. congruence.
  - apply (C5_primitive_checks VNull). vm_compute. congruence.
  - apply (C5_primitive_checks (VNumber 5)). vm_compute. congruence.
Defined.

(** ** The array check *)

Lemma arrayValidator_array (elems : list value) (items : schema) :
  validateSchema (VArray elems) (ArraySchema items)
  = forEach (λ datum _, validateSchema datum items) 0 elems.
Proof. by rewrite validate_array. Qed.

(** Every value that is not an array, mappings and [null] included, fails
    the array check with TypeMismatch. *)
Lemma arrayValidator_not_array (data : value) (items : schema) :
  isArray data = false →
  validateSchema data (ArraySchema items)
  = Throw (DataTypeMismatch (typeof data) (Some "array")).
Proof. intros Hdata. rewrite validate_array. by destruct data. Qed.

(** C6.  An array validated against an Array schema succeeds exactly when
    every element validates against [items]; otherwise the call throws,
    unchanged, what the first failing element throws, whatever elements come
    after it. *)
Theorem C6_array_fail_fast (items : schema) (elems : list value) :
  (validateSchema (VArray elems) (ArraySchema items) = Ok
     ↔ Forall (λ datum, validateSchema datum items = Ok) elems)
  ∧ (∀ pre datum post e,
       elems = pre ++ datum :: post →
       Forall (λ d, validateSchema d items = Ok) pre →
       validateSchema datum items = Throw e →
       ∀ post', validateSchema (VArray (pre ++ datum :: post')) (ArraySchema items) = Throw e)
  ∧ (∀ e, validateSchema (VArray elems) (ArraySchema items) = Throw e →
       ∃ pre datum post,
         elems = pre ++ datum :: post
         ∧ Forall (λ d, validateSchema d items = Ok) pre
         ∧ validateSchema datum items = Throw e).
Proof.
  split_and!.
  - rewrite arrayValidator_array, forEach_ok, Forall_lookup. naive_solver.
  - intros pre datum post e _ Hpre Hdatum post'. rewrite arrayValidator_array.
    apply forEach_first_throw; [| done].
    rewrite Forall_lookup in Hpre. eauto.
  - intros e. rewrite arrayValidator_array.
    intros (pre & datum & post & -> & Hpre & Hdatum)%forEach_throw_inv.
    exists pre, datum, post. split_and!; [done | | done].
    apply Forall_lookup. eauto.
Qed.

Lemma C6_array_fail_fast_witness :
  validateSchema
    (VArray [VObject [("a", VNumber 5)]; VObject [("a", VString "hello")];
             VObject [("a", VNumber 10)]]) aNumbers
  = Throw (DataTypeMismatch "string" (Some "number")).
Proof.
  refine (proj1 (proj2 (C6_array_fail_fast (ObjectSchema {[ "a" := NumberSchema ]} None)
           [VObject [("a", VNumber 5)]; VObject [("a", VString "hello")]]))
           [VObject [("a", VNumber 5)]] (VObject [("a", VString "hello")]) []
           (DataTypeMismatch "string" (Some "number")) eq_refl _ _
           [VObject [("a", VNumber 10)]]).
  - constructor; [vm_compute; reflexivity | constructor].
  - vm_compute. reflexivity.
Defined.

(** ** The object check *)

(** The values that pass the gate [typeof data !== 'object'] of line 65. *)
Lemma typeof_object (data : value) :
  typeof data = "object"
  ↔ data = VNull ∨ (∃ entries, data = VObject entries) ∨ (∃ elems, data = VArray elems).
Proof.
  split.
  - destruct data; try done; eauto.
  - by intros [-> | [[? ->] | [? ->]]].
Qed.

Lemma objValidator_not_object (data : value) (props : gmap string schema)
    (req : option (list string)) :
  typeof data ≠ "object" →
  validateSchema data (ObjectSchema props req)
  = Throw (DataTypeMismatch (typeof data) (Some "object")).
Proof. intros Hty. rewrite validate_object. by destruct data. Qed.

Lemma objValidator_null (props : gmap string schema) (req : option (list string)) :
  validateSchema VNull (ObjectSchema props req) = Throw KeysOfNull.
Proof. by rewrite validate_object. Qed.

Lemma objValidator_object (entries : list (string * value)) (props : gmap string schema)
    (req : option (list string)) :
  validateSchema (VObject entries) (ObjectSchema props req) =
  if requiredMissing req entries.*1 then Throw (MissingRequired (default [] req))
  else forEach (λ '(key, v) _, checkKey SchemaService_validate props key v) 0 entries.
Proof. by rewrite validate_object. Qed.

Lemma objValidator_array (elems : list value) (props : gmap string schema)
    (req : option (list string)) :
  validateSchema (VArray elems) (ObjectSchema props req) =
  if requiredMissing req (pretty <$> seq 0 (length elems))
  then Throw (MissingRequired (default [] req))
  else forEach (λ v i, checkKey SchemaService_validate props (pretty i) v) 0 elems.
Proof. by rewrite validate_object. Qed.

(** C1, at the failing input: the empty array passes the object check of a
    schema without required names, although it is an array and not a
    mapping. *)
Theorem C1_object_check_accepts_array :
  isArray (VArray []) = true
  ∧ validateSchema (VArray []) (ObjectSchema ∅ None) = Ok.
Proof. split; [done |]. by rewrite objValidator_array. Qed.

(** An array whose indices are the declared properties passes as well, its
    indices serving as keys. *)
Example object_check_indices :
  validateSchema (VArray [VString "x"; VNumber 1])
    (ObjectSchema {[ "0" := StringSchema None; "1" := NumberSchema ]} (Some ["0"; "1"]))
  = Ok.
Proof. vm_compute. reflexivity. Qed.

(** C9.  [null] passes the gate of the object check ([typeof null] is
    "object"), so the call does not fail with TypeMismatch, nor with any other
    validation error: it reaches [Object.keys(null)], where the host raises
    its own TypeError. *)
Theorem C9_null_object_check (props : gmap string schema) (req : option (list string)) :
  typeof VNull = "object"
  ∧ validateSchema VNull (ObjectSchema props req) = Throw KeysOfNull
  ∧ ¬ fails_with TypeMismatch (validateSchema VNull (ObjectSchema props req))
  ∧ kind_of KeysOfNull = None.
Proof.
  rewrite objValidator_null. split_and!; [done | done | | done].
  simpl. congruence.
Qed.

(** C10.  The empty array passes every Array schema, and the empty mapping
    passes every Object schema whose [required] is absent or empty, whatever
    the sub-schemas are. *)
Theorem C10_vacuous_success (items : schema) (props : gmap string schema) :
  validateSchema (VArray []) (ArraySchema items) = Ok
  ∧ validateSchema (VObject []) (ObjectSchema props None) = Ok
  ∧ validateSchema (VObject []) (ObjectSchema props (Some [])) = Ok.
Proof.
  split_and!.
  - by rewrite arrayValidator_array.
  - by rewrite objValidator_object.
  - by rewrite objValidator_object.
Qed.

(** With a non-empty [required] the empty mapping fails. *)
Lemma empty_object_required (props : gmap string schema) (name : string) (req : list string) :
  validateSchema (VObject []) (ObjectSchema props (Some (name :: req)))
  = Throw (MissingRequired (name :: req)).
Proof.
  rewrite objValidator_object.
  replace (requiredMissing (Some (name :: req)) ([] : list (string * value)).*1) with true;
    [done |].
  symmetry. apply requiredMissing_spec; [done |].
  exists name. split; [left | by intros ?%elem_of_nil].
Qed.

(** *** Required names *)

(** C2, amended.  For a mapping and an Object schema with a non-empty
    [required]: if some required name is not a key of the mapping, validation
    throws the MissingRequiredField error of this schema, whatever
    [properties] holds; if all are keys, the required list changes nothing:
    the outcome is that of the same schema without [required]. *)
Theorem C2_required_check (props : gmap string schema) (req : list string)
    (entries : list (string * value)) :
  req ≠ [] →
  ((∃ name, name ∈ req ∧ name ∉ entries.*1) →
     validateSchema (VObject entries) (ObjectSchema props (Some req))
     = Throw (MissingRequired req))
  ∧ ((∀ name, name ∈ req → name ∈ entries.*1) →
     validateSchema (VObject entries) (ObjectSchema props (Some req))
     = validateSchema (VObject entries) (ObjectSchema props None)).
Proof.
  intros Hne. rewrite !objValidator_object. split.
  - intros Hmiss. apply requiredMissing_spec in Hmiss as ->; done.
  - intros Hall.
    destruct (requiredMissing (Some req) entries.*1) eqn:Hreq; [| done].
    apply requiredMissing_spec in Hreq as (name & Hin & Hnot); [| done].
    destruct Hnot. by apply Hall.
Qed.

Lemma C2_required_check_witness :
  validateSchema (VObject [("hello", VString "world")])
    (ObjectSchema ∅ (Some ["name"]))
  = Throw (MissingRequired ["name"]).
Proof.
  refine (proj1 (C2_required_check ∅ ["name"] [("hello", VString "world")] _) _).
  - discriminate.
  - exists "name". split; [left |]. vm_compute. intros H.
    repeat (apply elem_of_cons in H as [H | H]; [discriminate H |]).
    by apply elem_of_nil in H.
Defined.

(** C2 as stated fails: every required name is a key of the mapping, yet the
    call fails with MissingRequiredField, thrown by the nested object check
    and propagated. *)
Lemma C2_counterexample :
  ¬ (fails_with MissingRequiredField
       (validateSchema (VObject [("a", VObject [])])
          (ObjectSchema {[ "a" := ObjectSchema ∅ (Some ["x"]) ]} (Some ["a"])))
     ↔ ∃ name, name ∈ ["a"] ∧ name ∉ [("a", VObject [])].*1).
Proof.
  intros [Hfails _]. destruct Hfails as (name & Hin & Hnot).
  - vm_compute. reflexivity.
  - apply Hnot. by apply list_elem_of_singleton in Hin as ->; left.
Qed.

(** *** The keys of the value *)

(** The callback of the key loop, by cases on [props[key]]. *)
Lemma checkKey_own (props : gmap string schema) (key : string) (v : value) (s : schema) :
  props !! key = Some s →
  checkKey SchemaService_validate props key v = validateSchema v s.
Proof. intros Hs. unfold checkKey, get_property. by rewrite Hs. Qed.

Lemma checkKey_unknown (props : gmap string schema) (key : string) (v : value) :
  props !! key = None → key ∉ Object_prototype_keys →
  checkKey SchemaService_validate props key v = Throw (keyNotFound props key).
Proof.
  intros Hs Hproto. unfold checkKey, get_property.
  by rewrite Hs, bool_decide_eq_false_2.
Qed.

(** The error of line 77 is made when [properties] declares no [toString];
    otherwise the host's TypeError takes its place. *)
Lemma keyNotFound_plain {V : Type} (props : gmap string V) (key : string) :
  props !! "toString" = None → keyNotFound props key = KeyNotFound key.
Proof.
  intros Hprops. unfold keyNotFound. rewrite bool_decide_eq_false_2; [done |].
  rewrite Hprops. by intros [? ?].
Qed.

Lemma keyNotFound_toString {V : Type} (props : gmap string V) (key : string) :
  is_Some (props !! "toString") → keyNotFound props key = PropsNotPrimitive.
Proof. intros Hprops. unfold keyNotFound. by rewrite bool_decide_eq_true_2. Qed.

Lemma checkKey_inherited (props : gmap string schema) (key : string) (v : value) :
  props !! key = None → key ∈ Object_prototype_keys →
  checkKey SchemaService_validate props key v = Throw (DataTypeMismatch (typeof v) None).
Proof.
  intros Hs Hproto. unfold checkKey, get_property.
  rewrite Hs, bool_decide_eq_true_2 by done. apply validate_proto_member.
Qed.

Lemma checkKey_ok (props : gmap string schema) (key : string) (v : value) :
  checkKey SchemaService_validate props key v = Ok ↔ entry_ok props (key, v).
Proof.
  unfold entry_ok. simpl. destruct (props !! key) as [s |] eqn:Hs.
  - rewrite (checkKey_own _ _ _ s) by done. split; [by eauto |].
    by intros (? & [= <-] & Hv).
  - destruct (decide (key ∈ Object_prototype_keys)).
    + rewrite checkKey_inherited by done. split; [done | by intros (? & [=] & _)].
    + rewrite checkKey_unknown by done. split; [done | by intros (? & [=] & _)].
Qed.

Lemma visit_entries_ok (props : gmap string schema) (entries : list (string * value)) :
  forEach (λ '(key, v) _, checkKey SchemaService_validate props key v) 0 entries = Ok
  ↔ Forall (entry_ok props) entries.
Proof.
  rewrite forEach_ok, Forall_lookup. split.
  - intros Hall j [key v] Hj. apply checkKey_ok. by apply (Hall j (key, v)).
  - intros Hall j [key v] Hj. apply checkKey_ok. by apply (Hall j).
Qed.

Lemma required_present_not_missing (req : option (list string)) (dataKeys : list string) :
  required_present req dataKeys → requiredMissing req dataKeys = false.
Proof.
  intros Hall. destruct req as [[| r rs] |]; [done | | done].
  apply not_true_is_false.
  intros (name & Hin & Hnot)%requiredMissing_spec; [| done].
  destruct Hnot. by eapply Hall.
Qed.

(** C3, amended.  For a mapping that passes the type and required-name
    checks, the keys are visited in enumeration order and the call stops at
    the first key that is not declared in [properties] or whose value fails
    its sub-schema: it succeeds exactly when every key is declared and its
    value validates; at a first offending key that is undeclared (and not a
    name inherited from Object.prototype, [properties] declaring no
    [toString] either) it fails with UnknownProperty; at a first offending
    key that is declared it throws the nested failure unchanged.  Hence a
    mapping with an undeclared key never validates. *)
Theorem C3_closed_object (props : gmap string schema) (req : option (list string))
    (entries : list (string * value)) :
  required_present req entries.*1 →
  (validateSchema (VObject entries) (ObjectSchema props req) = Ok
     ↔ Forall (entry_ok props) entries)
  ∧ (∀ pre key v post,
       entries = pre ++ (key, v) :: post →
       Forall (entry_ok props) pre →
       props !! key = None → key ∉ Object_prototype_keys →
       props !! "toString" = None →
       validateSchema (VObject entries) (ObjectSchema props req)
       = Throw (KeyNotFound key))
  ∧ (∀ pre key v post s e,
       entries = pre ++ (key, v) :: post →
       Forall (entry_ok props) pre →
       props !! key = Some s → validateSchema v s = Throw e →
       validateSchema (VObject entries) (ObjectSchema props req) = Throw e)
  ∧ (∀ key, key ∈ entries.*1 → props !! key = None →
       validateSchema (VObject entries) (ObjectSchema props req) ≠ Ok).
Proof.
  intros Hreq%required_present_not_missing.
  rewrite objValidator_object, Hreq. split_and!.
  - apply visit_entries_ok.
  - intros pre key v post -> Hpre Hkey Hproto HtoString.
    apply forEach_first_throw.
    + intros j [k w] Hj. apply checkKey_ok. by eapply Forall_lookup_1.
    + rewrite <- (keyNotFound_plain props key HtoString). by apply checkKey_unknown.
  - intros pre key v post s e -> Hpre Hkey Hv.
    apply forEach_first_throw.
    + intros j [k w] Hj. apply checkKey_ok. by eapply Forall_lookup_1.
    + by rewrite (checkKey_own _ _ _ s).
  - intros key ([k v] & -> & Hin)%list_elem_of_fmap Hkey.
    rewrite visit_entries_ok, Forall_forall.
    intros Hall. destruct (Hall _ Hin) as (s & Hs & _). simpl in *. congruence.
Qed.

Lemma C3_closed_object_witness :
  validateSchema (VObject [("name", VString "Kevin"); ("hello", VString "world")]) nameSchema
  = Throw (KeyNotFound "hello").
Proof.
  refine (proj1 (proj2 (C3_closed_object {[ "name" := StringSchema None ]} None
            [("name", VString "Kevin"); ("hello", VString "world")] _))
            [("name", VString "Kevin")] "hello" (VString "world") [] eq_refl _ _ _ _).
  - intros l name Hl. discriminate Hl.
  - constructor; [| constructor]. exists (StringSchema None). split; reflexivity.
  - reflexivity.
  - vm_compute. intros H.
    repeat (apply elem_of_cons in H as [H | H]; [discriminate H |]).
    by apply elem_of_nil in H.
  - reflexivity.
Defined.

(** C3 as stated fails: the mapping has a key that [properties] does not
    declare, yet the call fails with TypeMismatch, thrown for the key
    enumerated before it. *)
Lemma C3_counterexample :
  ¬ (("hello" ∈ [("name", VNumber 5); ("hello", VString "world")].*1
      ∧ ({[ "name" := StringSchema None ]} : gmap string schema) !! "hello" = None) →
     fails_with UnknownProperty
       (validateSchema (VObject [("name", VNumber 5); ("hello", VString "world")])
          nameSchema)).
Proof.
  intros Hclaim. assert (Hk : Some TypeMismatch = Some UnknownProperty); [| discriminate Hk].
  apply Hclaim. split; [| reflexivity]. right. left.
Qed.

(** A data key named like a member of Object.prototype and not declared in
    [properties] is not reported as an unknown property: the member found by
    [props[key]] is passed on as a schema, and the object validator it is
    dispatched to throws a type mismatch. *)
Example inherited_key :
  validateSchema (VObject [("constructor", VNumber 1)]) (ObjectSchema ∅ None)
  = Throw (DataTypeMismatch "number" None).
Proof. vm_compute. reflexivity. Qed.

(** When [properties] declares a property named [toString], an undeclared
    data key is not reported either: the message of line 77 cannot be built,
    and the host's TypeError is what the call throws. *)
Example undeclared_key_toString :
  validateSchema (VObject [("hello", VString "world")])
    (ObjectSchema {[ "toString" := StringSchema None ]} None)
  = Throw PropsNotPrimitive.
Proof. vm_compute. reflexivity. Qed.

(** ** Facts about the graph validator *)

Module GraphFacts.
Import Graph.
#[local] Open Scope graph_scope.

(** *** Reads *)

Lemma bind_deref {A : Type} (l : loc) (o : dataObject) (k : dataObject → M A) (σ : store) :
  objects σ !! l = Some o → bind (deref l) k σ = k o σ.
Proof. intros Hl. unfold bind, deref. by rewrite Hl. Qed.

Lemma bind_schema_at {A : Type} (l : loc) (o : schemaObject) (k : schemaObject → M A)
    (σ : store) :
  schemas σ !! l = Some o → bind (schema_at l) k σ = k o σ.
Proof. intros Hl. unfold bind, schema_at. by rewrite Hl. Qed.

(** *** The store is only read *)

Lemma reads_only_ret {A : Type} (a : A) : reads_only (ret a).
Proof. done. Qed.

Lemma reads_only_throw {A : Type} (e : exn) : reads_only (throw (A := A) e).
Proof. done. Qed.

Lemma reads_only_stuck {A : Type} : reads_only (stuck (A := A)).
Proof. done. Qed.

Lemma reads_only_out_of_fuel {A : Type} : reads_only (out_of_fuel (A := A)).
Proof. done. Qed.

Lemma reads_only_deref (l : loc) : reads_only (deref l).
Proof. intros σ. unfold deref. by destruct (objects σ !! l). Qed.

Lemma reads_only_schema_at (l : loc) : reads_only (schema_at l).
Proof. intros σ. unfold schema_at. by destruct (schemas σ !! l). Qed.

Lemma reads_only_bind {A B : Type} (m : M A) (k : A → M B) :
  reads_only m → (∀ a, reads_only (k a)) → reads_only (bind m k).
Proof.
  intros Hm Hk σ. unfold bind. specialize (Hm σ).
  destruct (m σ) as [[a | e | |] σ']; simpl in *; subst; [apply Hk | done..].
Qed.

Create HintDb reads discriminated.
#[local] Hint Resolve reads_only_ret reads_only_throw reads_only_stuck
  reads_only_out_of_fuel reads_only_deref reads_only_schema_at : reads.

Ltac reads_only_tac :=
  repeat first
    [ progress eauto with reads
    | apply reads_only_bind; [| intros ?]
    | match goal with
      | |- reads_only (match ?x with _ => _ end) => destruct x
      | |- reads_only (if ?b then _ else _) => destruct b
      end ].

Lemma reads_only_isArray (data : jsval) : reads_only (isArray data).
Proof. unfold isArray. reads_only_tac. Qed.

Lemma reads_only_Object_keys (data : jsval) : reads_only (Object_keys data).
Proof. unfold Object_keys. reads_only_tac. Qed.

Lemma reads_only_get (data : jsval) (key : string) : reads_only (get data key).
Proof. unfold get. reads_only_tac. Qed.

Lemma reads_only_elements (data : jsval) : reads_only (elements data).
Proof. unfold elements. reads_only_tac. Qed.

Lemma reads_only_schema_type (schema : schemaArg) : reads_only (schema_type schema).
Proof. unfold schema_type. reads_only_tac. Qed.

Lemma reads_only_schema_enum (schema : schemaArg) : reads_only (schema_enum schema).
Proof. unfold schema_enum. reads_only_tac. Qed.

Lemma reads_only_schema_properties (schema : schemaArg) :
  reads_only (schema_properties schema).
Proof. unfold schema_properties. reads_only_tac. Qed.

Lemma reads_only_schema_required (schema : schemaArg) :
  reads_only (schema_required schema).
Proof. unfold schema_required. reads_only_tac. Qed.

Lemma reads_only_schema_items (schema : schemaArg) : reads_only (schema_items schema).
Proof. unfold schema_items. reads_only_tac. Qed.

#[local] Hint Resolve reads_only_isArray reads_only_Object_keys reads_only_get
  reads_only_elements reads_only_schema_type reads_only_schema_enum
  reads_only_schema_properties reads_only_schema_required reads_only_schema_items : reads.

Lemma reads_only_forEach {A : Type} (callback : A → nat → M unit) (i : nat) (arr : list A) :
  (∀ x j, reads_only (callback x j)) → reads_only (forEach callback i arr).
Proof.
  intros Hcb. revert i. induction arr as [| x rest IH]; intros i; simpl.
  - apply reads_only_ret.
  - apply reads_only_bind; [apply Hcb | intros _; apply IH].
Qed.

Lemma reads_only_validate (fuel : nat) (data : jsval) (schema : schemaArg) :
  reads_only (SchemaService_validate fuel data schema).
Proof.
  revert data schema. induction fuel as [| fuel IH]; intros data schema; simpl.
  - apply reads_only_out_of_fuel.
  - apply reads_only_bind.
    { unfold getSchemaInstance. reads_only_tac. }
    intros [].
    + unfold objValidator_validate, mismatch. reads_only_tac.
      apply reads_only_forEach. intros key _. unfold checkKey. reads_only_tac.
    + unfold arrayValidator_validate, mismatch. reads_only_tac.
      apply reads_only_forEach. intros datum _. apply IH.
    + unfold stringValidator_validate, mismatch. reads_only_tac.
    + unfold booleanValidator_validate, mismatch. reads_only_tac.
    + unfold numberValidator_validate, mismatch. reads_only_tac.
Qed.

(** *** More recursion depth changes nothing *)

Lemma approx_refl {A : Type} (m : M A) : approx m m.
Proof. by intros σ r σ' Hm _. Qed.

Lemma approx_trans {A : Type} (m1 m2 m3 : M A) :
  approx m1 m2 → approx m2 m3 → approx m1 m3.
Proof. intros H12 H23 σ r σ' Hm Hr. apply H23; [| done]. by apply H12. Qed.

Lemma approx_bind {A B : Type} (m m' : M A) (k k' : A → M B) :
  approx m m' → (∀ a, approx (k a) (k' a)) → approx (bind m k) (bind m' k').
Proof.
  intros Hm Hk σ r σ'. unfold bind.
  destruct (m σ) as [[a | e | |] σ1] eqn:Hrun.
  - intros Hka Hr. rewrite (Hm _ _ _ Hrun) by done. by apply Hk.
  - intros [= <- <-] _. by rewrite (Hm _ _ _ Hrun).
  - intros [= <- <-] _. by rewrite (Hm _ _ _ Hrun).
  - by intros [= <- <-] Hr.
Qed.

Lemma approx_forEach {A : Type} (callback callback' : A → nat → M unit)
    (i : nat) (arr : list A) :
  (∀ x j, approx (callback x j) (callback' x j)) →
  approx (forEach callback i arr) (forEach callback' i arr).
Proof.
  intros Hcb. revert i. induction arr as [| x rest IH]; intros i; simpl.
  - apply approx_refl.
  - apply approx_bind; [apply Hcb | intros _; apply IH].
Qed.

Ltac approx_tac :=
  repeat first
    [ apply approx_refl
    | apply approx_bind; [apply approx_refl | intros ?]
    | match goal with
      | |- approx (match ?x with _ => _ end) (match ?x with _ => _ end) => destruct x
      | |- approx (if ?b then _ else _) (if ?b then _ else _) => destruct b
      end ].

Lemma validate_fuel_S (fuel : nat) (data : jsval) (schema : schemaArg) :
  approx (SchemaService_validate fuel data schema)
         (SchemaService_validate (S fuel) data schema).
Proof.
  revert data schema. induction fuel as [| fuel IH]; intros data schema.
  - by intros σ r σ' [= <- <-] Hr.
  - change (SchemaService_validate (S (S fuel)) data schema) with
      (let* instance := getSchemaInstance schema in
       match instance with
       | objValidator => objValidator_validate (SchemaService_validate (S fuel)) data schema
       | arrayValidator => arrayValidator_validate (SchemaService_validate (S fuel)) data schema
       | stringValidator => stringValidator_validate data schema
       | booleanValidator => booleanValidator_validate data schema
       | numberValidator => numberValidator_validate data schema
       end).
    simpl. apply approx_bind; [apply approx_refl |]. intros [].
    + unfold objValidator_validate. approx_tac.
      apply approx_forEach. intros key _. unfold checkKey. approx_tac. apply IH.
    + unfold arrayValidator_validate. approx_tac.
      apply approx_forEach. intros datum _. apply IH.
    + apply approx_refl.
    + apply approx_refl.
    + apply approx_refl.
Qed.

Lemma validate_fuel_mono (fuel fuel' : nat) (data : jsval) (schema : schemaArg) :
  fuel ≤ fuel' →
  approx (SchemaService_validate fuel data schema)
         (SchemaService_validate fuel' data schema).
Proof.
  induction 1 as [| fuel' _ IH]; [apply approx_refl |].
  eapply approx_trans; [apply IH | apply validate_fuel_S].
Qed.

End GraphFacts.

(** * The graph validator computes the tree validator *)

Lemma schema_depth_property (props : gmap string schema) (req : option (list string))
    (key : string) (s : schema) :
  props !! key = Some s → schema_depth s < schema_depth (ObjectSchema props req).
Proof.
  intros Hkey. simpl. apply Nat.lt_succ_r. revert key s Hkey.
  apply (map_fold_weak_ind
           (λ d (m : gmap string schema), ∀ key s, m !! key = Some s → schema_depth s ≤ d)).
  - intros key s. by rewrite lookup_empty.
  - intros i x m d Hi IH key s. rewrite lookup_insert. case_decide.
    + intros [= ->]. lia.
    + intros Hkey%IH. lia.
Qed.

Lemma typeof_tree (σ : Graph.store) (data : Graph.jsval) (v : value) :
  value_tree σ data v → Graph.typeof data = typeof v.
Proof. by destruct 1. Qed.

Section runs.
Context (σ : Graph.store).

Lemma run_schema_enum (l : Graph.loc) (enum : option (list string)) :
  Graph.schemas σ !! l = Some (Graph.StringNode enum) →
  Graph.schema_enum (Graph.SchemaAt l) σ = (Graph.Returned enum, σ).
Proof. intros Hl. unfold Graph.schema_enum. by rewrite (GraphFacts.bind_schema_at _ _ _ _ Hl). Qed.

Lemma bind_returned {A B : Type} (m : Graph.M A) (k : A → Graph.M B) (a : A) :
  m σ = (Graph.Returned a, σ) → Graph.bind m k σ = k a σ.
Proof. intros Hm. unfold Graph.bind. by rewrite Hm. Qed.

Lemma run_schema_type (l : Graph.loc) (o : Graph.schemaObject) :
  Graph.schemas σ !! l = Some o →
  Graph.schema_type (Graph.SchemaAt l) σ = (Graph.Returned (Some (Graph.node_type o)), σ).
Proof. intros Hl. unfold Graph.schema_type. by rewrite (GraphFacts.bind_schema_at _ o). Qed.

Lemma run_getSchemaInstance (l : Graph.loc) (o : Graph.schemaObject) :
  Graph.schemas σ !! l = Some o →
  Graph.getSchemaInstance (Graph.SchemaAt l) σ
  = (Graph.Returned (validatorFor (Some (Graph.node_type o))), σ).
Proof.
  intros Hl. unfold Graph.getSchemaInstance.
  by rewrite (bind_returned _ _ _ (run_schema_type _ _ Hl)).
Qed.

Lemma run_service (fuel : nat) (data : Graph.jsval) (l : Graph.loc) (o : Graph.schemaObject) :
  Graph.schemas σ !! l = Some o →
  Graph.SchemaService_validate (S fuel) data (Graph.SchemaAt l) σ =
  match validatorFor (Some (Graph.node_type o)) with
  | objValidator =>
      Graph.objValidator_validate (Graph.SchemaService_validate fuel) data (Graph.SchemaAt l) σ
  | arrayValidator =>
      Graph.arrayValidator_validate (Graph.SchemaService_validate fuel) data (Graph.SchemaAt l) σ
  | stringValidator => Graph.stringValidator_validate data (Graph.SchemaAt l) σ
  | booleanValidator => Graph.booleanValidator_validate data (Graph.SchemaAt l) σ
  | numberValidator => Graph.numberValidator_validate data (Graph.SchemaAt l) σ
  end.
Proof.
  intros Hl. cbn [Graph.SchemaService_validate].
  rewrite (bind_returned _ _ _ (run_getSchemaInstance _ _ Hl)).
  by destruct (validatorFor _).
Qed.

Lemma run_inherited (fuel : nat) (data : Graph.jsval) (name : string) :
  Graph.SchemaService_validate (S fuel) data (Graph.Inherited name) σ
  = (Graph.Threw (DataTypeMismatch (Graph.typeof data) None), σ).
Proof. by destruct data. Qed.

(** The two loops agree when their callbacks agree index by index. *)
Lemma run_forEach {A B : Type} (callback : A → nat → Graph.M unit)
    (callback' : B → nat → result) (i : nat) (arr : list A) (arr' : list B) :
  length arr = length arr' →
  (∀ j x y, arr !! j = Some x → arr' !! j = Some y →
     callback x (i + j) σ = (outcome_of (callback' y (i + j)), σ)) →
  Graph.forEach callback i arr σ = (outcome_of (forEach callback' i arr'), σ).
Proof.
  revert i arr'. induction arr as [| x rest IH]; intros i [| y rest'] Hlen Hcb;
    simplify_eq/=; [done |].
  pose proof (Hcb 0 x y eq_refl eq_refl) as Hx. rewrite Nat.add_0_r in Hx.
  unfold Graph.bind. rewrite Hx. destruct (callback' y i); simpl; [| done].
  apply IH; [done |]. intros j x' y' Hj Hj'.
  replace (S i + j) with (i + S j) by lia. by apply Hcb.
Qed.
Arguments Graph.bind : simpl never.
Arguments Graph.schema_type : simpl never.
Arguments Graph.schema_enum : simpl never.
Arguments Graph.schema_properties : simpl never.
Arguments Graph.schema_required : simpl never.
Arguments Graph.schema_items : simpl never.
Arguments Graph.isArray : simpl never.
Arguments Graph.Object_keys : simpl never.
Arguments Graph.get : simpl never.
Arguments Graph.elements : simpl never.
Arguments Graph.forEach : simpl never.
Arguments Graph.SchemaService_validate : simpl never.
Arguments validateSchema : simpl never.

Lemma run_string (data : Graph.jsval) (v : value) (l : Graph.loc) (enum : option (list string)) :
  Graph.schemas σ !! l = Some (Graph.StringNode enum) →
  value_tree σ data v →
  Graph.stringValidator_validate data (Graph.SchemaAt l) σ
  = (outcome_of (validateSchema v (StringSchema enum)), σ).
Proof.
  intros Hl Hv. rewrite stringValidator_eq. unfold Graph.stringValidator_validate.
  rewrite (bind_returned _ _ _ (run_schema_type _ _ Hl)).
  destruct Hv; simpl; try done.
  rewrite (bind_returned _ _ _ (run_schema_enum _ _ Hl)).
  destruct enum as [en |]; [| done]. unfold includes. by case_bool_decide.
Qed.

Lemma run_number (data : Graph.jsval) (v : value) (l : Graph.loc) :
  Graph.schemas σ !! l = Some Graph.NumberNode →
  value_tree σ data v →
  Graph.numberValidator_validate data (Graph.SchemaAt l) σ
  = (outcome_of (validateSchema v NumberSchema), σ).
Proof.
  intros Hl Hv. rewrite numberValidator_eq. unfold Graph.numberValidator_validate.
  rewrite (bind_returned _ _ _ (run_schema_type _ _ Hl)).
  by destruct Hv.
Qed.

Lemma run_boolean (data : Graph.jsval) (v : value) (l : Graph.loc) :
  Graph.schemas σ !! l = Some Graph.BooleanNode →
  value_tree σ data v →
  Graph.booleanValidator_validate data (Graph.SchemaAt l) σ
  = (outcome_of (validateSchema v BooleanSchema), σ).
Proof.
  intros Hl Hv. rewrite booleanValidator_eq. unfold Graph.booleanValidator_validate.
  rewrite (bind_returned _ _ _ (run_schema_type _ _ Hl)).
  by destruct Hv.
Qed.


Lemma run_isArray (data : Graph.jsval) (v : value) :
  value_tree σ data v → Graph.isArray data σ = (Graph.Returned (isArray v), σ).
Proof.
  unfold Graph.isArray.
  destruct 1 as [| | | | | l refs entries Hl _ _ | l refs elems Hl _]; try done.
  - by rewrite (GraphFacts.bind_deref _ _ _ _ Hl).
  - by rewrite (GraphFacts.bind_deref _ _ _ _ Hl).
Qed.

Lemma run_schema_items (l ref : Graph.loc) :
  Graph.schemas σ !! l = Some (Graph.ArrayNode ref) →
  Graph.schema_items (Graph.SchemaAt l) σ = (Graph.Returned ref, σ).
Proof.
  intros Hl. unfold Graph.schema_items. by rewrite (GraphFacts.bind_schema_at _ _ _ _ Hl).
Qed.

Lemma run_schema_properties (l : Graph.loc) (refs : gmap string Graph.loc)
    (req : option (list string)) :
  Graph.schemas σ !! l = Some (Graph.ObjectNode refs req) →
  Graph.schema_properties (Graph.SchemaAt l) σ = (Graph.Returned refs, σ).
Proof.
  intros Hl. unfold Graph.schema_properties.
  by rewrite (GraphFacts.bind_schema_at _ _ _ _ Hl).
Qed.

Lemma run_schema_required (l : Graph.loc) (refs : gmap string Graph.loc)
    (req : option (list string)) :
  Graph.schemas σ !! l = Some (Graph.ObjectNode refs req) →
  Graph.schema_required (Graph.SchemaAt l) σ = (Graph.Returned req, σ).
Proof.
  intros Hl. unfold Graph.schema_required.
  by rewrite (GraphFacts.bind_schema_at _ _ _ _ Hl).
Qed.

Lemma run_elements (l : Graph.loc) (refs : list Graph.jsval) :
  Graph.objects σ !! l = Some (Graph.ArrayObject refs) →
  Graph.elements (Graph.JRef l) σ = (Graph.Returned refs, σ).
Proof.
  intros Hl. unfold Graph.elements. by rewrite (GraphFacts.bind_deref _ _ _ _ Hl).
Qed.

Lemma run_Object_keys (l : Graph.loc) (o : Graph.dataObject) :
  Graph.objects σ !! l = Some o →
  Graph.Object_keys (Graph.JRef l) σ = (Graph.Returned (Graph.ownEntries o).*1, σ).
Proof.
  intros Hl. unfold Graph.Object_keys. by rewrite (GraphFacts.bind_deref _ _ _ _ Hl).
Qed.

(** [data[key]] is the value listed with [key], the keys being distinct. *)
Lemma run_get (l : Graph.loc) (o : Graph.dataObject) (key : string) (d : Graph.jsval) :
  Graph.objects σ !! l = Some o →
  NoDup (Graph.ownEntries o).*1 →
  (key, d) ∈ Graph.ownEntries o →
  Graph.get (Graph.JRef l) key σ = (Graph.Returned d, σ).
Proof.
  intros Hl Hnodup Hin. unfold Graph.get.
  rewrite (GraphFacts.bind_deref _ _ _ _ Hl).
  by rewrite (elem_of_list_to_map_1 _ _ _ Hnodup Hin).
Qed.

(** The array check on the graph, given that the recursive calls agree
    with the tree validator. *)
Lemma run_array (validate : Graph.jsval → Graph.schemaArg → Graph.M unit)
    (data : Graph.jsval) (v : value) (l ref : Graph.loc) (items : schema) :
  Graph.schemas σ !! l = Some (Graph.ArrayNode ref) →
  value_tree σ data v →
  (∀ d w, value_tree σ d w →
     validate d (Graph.SchemaAt ref) σ = (outcome_of (validateSchema w items), σ)) →
  Graph.arrayValidator_validate validate data (Graph.SchemaAt l) σ
  = (outcome_of (validateSchema v (ArraySchema items)), σ).
Proof.
  intros Hl Hv Hrec. unfold Graph.arrayValidator_validate.
  rewrite (bind_returned _ _ _ (run_isArray _ _ Hv)).
  rewrite (bind_returned _ _ _ (run_schema_type _ _ Hl)).
  destruct (isArray v) eqn:Harr; simpl.
  - destruct Hv as [| | | | | | l' refs elems Hl' Helems]; try done.
    rewrite (bind_returned _ _ _ (run_schema_items _ _ Hl)).
    rewrite (bind_returned _ _ _ (run_elements _ _ Hl')).
    rewrite arrayValidator_array.
    apply run_forEach; [by eapply Forall2_length |].
    intros j d w Hd Hw. apply Hrec. by eapply Forall2_lookup_lr.
  - rewrite arrayValidator_not_array by done.
    unfold Graph.mismatch, Graph.throw. by rewrite (typeof_tree _ _ _ Hv).
Qed.

(** The indices of an array, as [Object.keys] lists them. *)
Lemma array_keys (refs : list Graph.jsval) :
  (Graph.ownEntries (Graph.ArrayObject refs)).*1 = pretty <$> seq 0 (length refs).
Proof. simpl. rewrite fmap_imap. apply (imap_seq_0 refs pretty). Qed.

(** The callback of the key loop on the graph, given that the recursive
    calls agree with the tree validator. *)
Lemma run_checkKey (validate : Graph.jsval → Graph.schemaArg → Graph.M unit)
    (refs : gmap string Graph.loc) (props : gmap string schema)
    (data d : Graph.jsval) (w : value) (key : string) :
  option_Forall2
    (λ ref s, ∀ d w, value_tree σ d w →
       validate d (Graph.SchemaAt ref) σ = (outcome_of (validateSchema w s), σ))
    (refs !! key) (props !! key) →
  (is_Some (refs !! "toString") ↔ is_Some (props !! "toString")) →
  (∀ name d, validate d (Graph.Inherited name) σ
             = (Graph.Threw (DataTypeMismatch (Graph.typeof d) None), σ)) →
  Graph.get data key σ = (Graph.Returned d, σ) →
  value_tree σ d w →
  Graph.checkKey validate refs data key σ
  = (outcome_of (checkKey SchemaService_validate props key w), σ).
Proof.
  intros Hkey HtoString Hinh Hget Hd. unfold Graph.checkKey, Graph.get_property.
  inversion Hkey as [ref s Hrec Href Hs | Href Hs]; symmetry in Hs.
  - rewrite (bind_returned _ _ _ Hget).
    rewrite (checkKey_own _ _ _ _ Hs). by apply Hrec.
  - case_bool_decide as Hproto.
    + rewrite (bind_returned _ _ _ Hget), Hinh.
      rewrite checkKey_inherited by done. by rewrite (typeof_tree _ _ _ Hd).
    + rewrite checkKey_unknown by done. unfold keyNotFound.
      by rewrite (bool_decide_ext _ _ HtoString).
Qed.

(** The object check on the graph. *)
Lemma run_object (validate : Graph.jsval → Graph.schemaArg → Graph.M unit)
    (data : Graph.jsval) (v : value) (l : Graph.loc)
    (refs : gmap string Graph.loc) (props : gmap string schema)
    (req : option (list string)) :
  Graph.schemas σ !! l = Some (Graph.ObjectNode refs req) →
  value_tree σ data v →
  (∀ key, option_Forall2
     (λ ref s, ∀ d w, value_tree σ d w →
        validate d (Graph.SchemaAt ref) σ = (outcome_of (validateSchema w s), σ))
     (refs !! key) (props !! key)) →
  (∀ name d, validate d (Graph.Inherited name) σ
             = (Graph.Threw (DataTypeMismatch (Graph.typeof d) None), σ)) →
  Graph.objValidator_validate validate data (Graph.SchemaAt l) σ
  = (outcome_of (validateSchema v (ObjectSchema props req)), σ).
Proof.
  intros Hl Hv Hrec Hinh. unfold Graph.objValidator_validate.
  assert (is_Some (refs !! "toString") ↔ is_Some (props !! "toString")) as HtoString.
  { destruct (Hrec "toString"); [| by rewrite !is_Some_alt]. split; eauto. }
  rewrite (bind_returned _ _ _ (run_schema_type _ _ Hl)).
  destruct Hv as [s | x | b | | | l' ents entries Hl' Hnodup Hents
                 | l' ents elems Hl' Helems].
  1-3, 5: by rewrite objValidator_not_object.
  - rewrite objValidator_null. simpl.
    rewrite (bind_returned _ _ _ (run_schema_properties _ _ _ Hl)).
    by rewrite (bind_returned _ _ _ (run_schema_required _ _ _ Hl)).
  - rewrite objValidator_object. simpl.
    rewrite (bind_returned _ _ _ (run_schema_properties _ _ _ Hl)).
    rewrite (bind_returned _ _ _ (run_schema_required _ _ _ Hl)).
    rewrite (bind_returned _ _ _ (run_Object_keys _ _ Hl')). simpl.
    assert (ents.*1 = entries.*1) as Hkeys.
    { clear -Hents.
      induction Hents as [| [k d] [k' w] ents' entries' [Hk _] _ IHents]; [done |].
      rewrite !fmap_cons. simpl in Hk. by rewrite Hk, IHents. }
    rewrite <- Hkeys. destruct (requiredMissing req ents.*1); [done |].
    apply run_forEach.
    { rewrite length_fmap. by eapply Forall2_length. }
    intros j key [k w] Hkey Hentry. simpl.
    apply list_lookup_fmap_Some in Hkey as ([k' d] & -> & Hent). simpl.
    destruct (Forall2_lookup_lr _ _ _ _ _ _ Hents Hent Hentry) as [Hk Hd].
    simpl in *. subst k'.
    eapply run_checkKey; [apply Hrec | apply HtoString | apply Hinh | | done].
    eapply run_get; [done | done |]. by eapply list_elem_of_lookup_2.
  - rewrite objValidator_array. simpl.
    rewrite (bind_returned _ _ _ (run_schema_properties _ _ _ Hl)).
    rewrite (bind_returned _ _ _ (run_schema_required _ _ _ Hl)).
    rewrite (bind_returned _ _ _ (run_Object_keys _ _ Hl')).
    rewrite array_keys.
    rewrite (Forall2_length _ _ _ Helems).
    destruct (requiredMissing req _); [done |].
    rewrite <- (Forall2_length _ _ _ Helems).
    apply run_forEach.
    { by rewrite length_fmap, length_seq; eapply Forall2_length. }
    intros j key w Hkey Hw. simpl.
    apply list_lookup_fmap_Some in Hkey as (i & -> & Hi).
    apply lookup_seq in Hi as [-> Hlt]. simpl.
    destruct (Forall2_lookup_r _ _ _ _ _ Helems Hw) as (d & Hd & Hdw).
    eapply run_checkKey; [apply Hrec | apply HtoString | apply Hinh | | done].
    eapply run_get; [done | |].
    + rewrite array_keys. apply NoDup_fmap_2; [apply _ | apply NoDup_seq].
    + simpl. apply list_elem_of_lookup. exists j.
      by rewrite list_lookup_imap, Hd.
Qed.
End runs.

(** C8.  When the schema reachable from [root] is a finite tree [s] and
    the value reachable from [data] is a finite tree [v], every call given
    more recursion depth than [s] is deep terminates: it returns or throws
    exactly what the tree validator computes for [v] and [s] (success, or one
    error), without running out of depth or getting stuck. *)
Theorem C8_validate_terminates (σ : Graph.store) (root : Graph.loc) (s : schema)
    (data : Graph.jsval) (v : value) (fuel : nat) :
  schema_tree σ root s → value_tree σ data v → schema_depth s < fuel →
  Graph.validateSchema fuel data root σ = (outcome_of (validateSchema v s), σ).
Proof.
  unfold Graph.validateSchema. revert root s data v.
  induction fuel as [| fuel IH]; intros l s data v Hs Hv Hfuel; [lia |].
  destruct Hs as [l enum Hl | l Hl | l Hl | l refs props req Hl Hprops | l ref items Hl Hitems];
    rewrite (run_service _ _ _ _ _ Hl); simpl.
  - by apply run_string.
  - by apply run_number.
  - by apply run_boolean.
  - eapply run_object; [done | done | |].
    + intros key. pose proof (Hprops key) as Hk.
      inversion Hk as [ref s' Hs' Href Hkey |]; constructor.
      intros d w Hd. apply IH; [done | done |]. symmetry in Hkey.
      apply (schema_depth_property _ req) in Hkey. simpl in *. lia.
    + intros name d. destruct fuel as [| fuel]; [simpl in Hfuel; lia |].
      apply run_inherited.
  - eapply run_array; [done | done |].
    intros d w Hd. apply IH; [done | done | simpl in Hfuel; lia].
Qed.

Lemma exampleStore_schema : schema_tree exampleStore 1 aNumbers.
Proof.
  apply (tree_array _ 1 2); [done |].
  apply (tree_object _ 2 {[ "a" := 3 ]}); [done |].
  intros key. destruct (decide (key = "a")) as [-> | Hne].
  - rewrite !lookup_singleton_eq. constructor. by apply tree_number.
  - rewrite !lookup_singleton_ne by done. constructor.
Qed.

Lemma exampleStore_value :
  value_tree exampleStore (Graph.JRef 1)
    (VArray [VObject [("a", VNumber 5)]; VObject [("a", VString "hello")]]).
Proof.
  apply (tree_VArray _ 1 [Graph.JRef 2; Graph.JRef 3]); [done |].
  repeat constructor.
  - apply (tree_VObject _ 2 [("a", Graph.JNumber 5)]); [done | |].
    + apply NoDup_singleton.
    + repeat constructor.
  - apply (tree_VObject _ 3 [("a", Graph.JString "hello")]); [done | |].
    + apply NoDup_singleton.
    + repeat constructor.
Qed.

Lemma C8_validate_terminates_witness :
  Graph.validateSchema 3 (Graph.JRef 1) 1 exampleStore
  = (Graph.Threw (DataTypeMismatch "string" (Some "number")), exampleStore).
Proof.
  refine (C8_validate_terminates exampleStore 1 aNumbers (Graph.JRef 1) _ 3
            exampleStore_schema exampleStore_value _).
  vm_compute. lia.
Defined.

(** Without acyclicity the recursion need not end: on the cyclic store no
    recursion depth suffices. *)
Lemma cyclic_schema_diverges (fuel : nat) :
  Graph.validateSchema fuel (Graph.JRef 1) 1 cyclicStore = (Graph.OutOfFuel, cyclicStore).
Proof.
  unfold Graph.validateSchema. induction fuel as [| fuel IH]; [done |].
  rewrite (run_service cyclicStore fuel (Graph.JRef 1) 1 (Graph.ArrayNode 1) eq_refl).
  simpl. unfold Graph.arrayValidator_validate.
  rewrite (bind_returned cyclicStore (Graph.isArray (Graph.JRef 1)) _ true eq_refl).
  rewrite (bind_returned cyclicStore (Graph.schema_type (Graph.SchemaAt 1)) _
             (Some "array") eq_refl).
  simpl.
  rewrite (bind_returned cyclicStore (Graph.schema_items (Graph.SchemaAt 1)) _ 1 eq_refl).
  rewrite (bind_returned cyclicStore (Graph.elements (Graph.JRef 1)) _
             [Graph.JRef 1] eq_refl).
  simpl. unfold Graph.bind at 1. by rewrite IH.
Qed.

(** C7.  A call leaves the store, where the value and the schema live,
    exactly as it found it; and a second call on the same value and schema,
    run on the store the first one left, ends the same way: both return, or
    both throw the same error, whatever recursion depth each was given (as
    long as neither runs out of it). *)
Theorem C7_deterministic_and_pure (fuel1 fuel2 : nat) (data : Graph.jsval)
    (root : Graph.loc) (σ σ1 σ2 : Graph.store) (r1 r2 : Graph.outcome unit) :
  Graph.validateSchema fuel1 data root σ = (r1, σ1) →
  Graph.validateSchema fuel2 data root σ1 = (r2, σ2) →
  r1 ≠ Graph.OutOfFuel → r2 ≠ Graph.OutOfFuel →
  σ1 = σ ∧ σ2 = σ ∧ r1 = r2.
Proof.
  unfold Graph.validateSchema. intros Hrun1 Hrun2 Hr1 Hr2.
  pose proof (GraphFacts.reads_only_validate fuel1 data (Graph.SchemaAt root) σ) as Hσ1.
  rewrite Hrun1 in Hσ1. simpl in Hσ1. subst σ1.
  pose proof (GraphFacts.reads_only_validate fuel2 data (Graph.SchemaAt root) σ) as Hσ2.
  rewrite Hrun2 in Hσ2. simpl in Hσ2. subst σ2.
  split_and!; [done | done |].
  pose proof (GraphFacts.validate_fuel_mono fuel1 (fuel1 `max` fuel2) data
                (Graph.SchemaAt root) ltac:(lia) σ r1 σ Hrun1 Hr1) as Hmax1.
  pose proof (GraphFacts.validate_fuel_mono fuel2 (fuel1 `max` fuel2) data
                (Graph.SchemaAt root) ltac:(lia) σ r2 σ Hrun2 Hr2) as Hmax2.
  congruence.
Qed.

Lemma C7_deterministic_and_pure_witness :
  Graph.validateSchema 3 (Graph.JRef 1) 1 exampleStore
  = (Graph.Threw (DataTypeMismatch "string" (Some "number")), exampleStore)
  ∧ Graph.validateSchema 5 (Graph.JRef 1) 1 exampleStore
    = (Graph.Threw (DataTypeMismatch "string" (Some "number")), exampleStore)
  ∧ (exampleStore = exampleStore ∧ exampleStore = exampleStore
     ∧ Graph.Threw (A := unit) (DataTypeMismatch "string" (Some "number"))
       = Graph.Threw (DataTypeMismatch "string" (Some "number"))).
Proof.
  assert (Hrun1 : Graph.validateSchema 3 (Graph.JRef 1) 1 exampleStore
                  = (Graph.Threw (DataTypeMismatch "string" (Some "number")), exampleStore))
    by (vm_compute; reflexivity).
  assert (Hrun2 : Graph.validateSchema 5 (Graph.JRef 1) 1 exampleStore
                  = (Graph.Threw (DataTypeMismatch "string" (Some "number")), exampleStore))
    by (vm_compute; reflexivity).
  split; [exact Hrun1 |]. split; [exact Hrun2 |].
  apply (C7_deterministic_and_pure 3 5 (Graph.JRef 1) 1 exampleStore exampleStore
           exampleStore _ _ Hrun1 Hrun2); discriminate.
Defined.

(** * Further properties of the tree validator *)

(** Induction on values, with the hypothesis for every entry and element. *)
Lemma value_ind' (P : value → Prop) :
  (∀ s, P (VString s)) → (∀ x, P (VNumber x)) → (∀ b, P (VBoolean b)) →
  P VNull → P VUndefined →
  (∀ entries, Forall (λ entry, P entry.2) entries → P (VObject entries)) →
  (∀ elems, Forall P elems → P (VArray elems)) →
  ∀ v, P v.
Proof.
  intros Hs Hn Hb Hnull Hundef Hobj Harr. fix IH 1. intros [s | x | b | | | entries | elems].
  - apply Hs.
  - apply Hn.
  - apply Hb.
  - apply Hnull.
  - apply Hundef.
  - apply Hobj. induction entries as [| [k w] entries IHentries]; constructor; [apply IH | done].
  - apply Harr. induction elems as [| w elems IHelems]; constructor; [apply IH | done].
Qed.

(** ** Arrays under the object check *)

Lemma index_keys {A : Type} (l : list A) :
  (imap (λ i x, (pretty i, x)) l).*1 = pretty <$> seq 0 (length l).
Proof. rewrite fmap_imap. apply (imap_seq_0 l pretty). Qed.

Lemma forEach_index_entries (f : string → value → result) (n m : nat) (elems : list value) :
  forEach (λ v i, f (pretty i) v) n elems
  = forEach (λ '(key, v) _, f key v) m (imap (λ i v, (pretty (n + i), v)) elems).
Proof.
  revert n m. induction elems as [| x elems IH]; intros n m; [done |].
  rewrite imap_cons. simpl. rewrite Nat.add_0_r. destruct (f (pretty n) x); [| done].
  rewrite (IH (S n) (S m)). f_equal. apply imap_ext. intros i y _. simpl.
  by replace (n + S i) with (S (n + i)) by lia.
Qed.

Lemma array_as_object (elems : list value) (props : gmap string schema)
    (req : option (list string)) :
  validateSchema (VArray elems) (ObjectSchema props req)
  = validateSchema (VObject (indexEntries elems)) (ObjectSchema props req).
Proof.
  rewrite objValidator_array, objValidator_object. unfold indexEntries.
  rewrite index_keys. destruct (requiredMissing req _); [done |].
  apply (forEach_index_entries (checkKey SchemaService_validate props) 0 0).
Qed.

Lemma requiredMissing_false_iff (req : option (list string)) (dataKeys : list string) :
  requiredMissing req dataKeys = false ↔ required_present req dataKeys.
Proof.
  split; [| apply required_present_not_missing].
  intros Hreq l name -> Hin. destruct (decide (name ∈ dataKeys)) as [| Hnot]; [done |].
  assert (requiredMissing (Some l) dataKeys = true) as Hmiss; [| congruence].
  apply requiredMissing_spec; [| by exists name].
  intros ->. by apply elem_of_nil in Hin.
Qed.

(** A mapping passes an Object schema exactly when every required name is
    one of its keys and every key is declared with a value that passes. *)
Lemma object_ok_iff (entries : list (string * value)) (props : gmap string schema)
    (req : option (list string)) :
  validateSchema (VObject entries) (ObjectSchema props req) = Ok
  ↔ required_present req entries.*1 ∧ Forall (entry_ok props) entries.
Proof.
  rewrite objValidator_object, <- requiredMissing_false_iff.
  destruct (requiredMissing req entries.*1).
  - split; [done | by intros [? _]].
  - rewrite visit_entries_ok. split; [done | by intros [_ ?]].
Qed.

(** X1.  The object check does not tell an array from a mapping: it
    validates an array exactly as the mapping from its indices, written in
    decimal, to its elements.  So an array passes an Object schema exactly
    when every required name is one of its indices and every index is a
    declared property whose sub-schema the element passes. *)
Theorem X1_array_under_object_check (elems : list value) (props : gmap string schema)
    (req : option (list string)) :
  validateSchema (VArray elems) (ObjectSchema props req)
  = validateSchema (VObject (indexEntries elems)) (ObjectSchema props req)
  ∧ (validateSchema (VArray elems) (ObjectSchema props req) = Ok
     ↔ required_present req (pretty <$> seq 0 (length elems))
       ∧ ∀ i v, elems !! i = Some v → entry_ok props (pretty i, v)).
Proof.
  split; [apply array_as_object |].
  rewrite array_as_object, object_ok_iff. unfold indexEntries.
  rewrite index_keys, Forall_lookup. apply and_iff_compat_l. split.
  - intros Hall i v Hi. apply (Hall i). by rewrite list_lookup_imap, Hi.
  - intros Hall i [k v]. rewrite list_lookup_imap.
    destruct (elems !! i) as [w |] eqn:Hi; [| done].
    intros [= <- <-]. by apply Hall.
Qed.

(** ** Undeclared keys named like members of [Object.prototype] *)

(** X2.  When the first offending key of a mapping is not declared in
    [properties] but names a member of Object.prototype, the member that
    [props[key]] finds is passed on as the schema, the factory's [default]
    sends it to the object validator, and the call throws a type mismatch
    that reports the type of the key's value and the schema type
    [undefined], not an unknown property. *)
Theorem X2_inherited_key_mismatch (props : gmap string schema) (req : option (list string))
    (pre post : list (string * value)) (key : string) (v : value) :
  required_present req (pre ++ (key, v) :: post).*1 →
  Forall (entry_ok props) pre →
  props !! key = None → key ∈ Object_prototype_keys →
  validateSchema (VObject (pre ++ (key, v) :: post)) (ObjectSchema props req)
  = Throw (DataTypeMismatch (typeof v) None).
Proof.
  intros Hreq%required_present_not_missing Hpre Hkey Hproto.
  rewrite objValidator_object, Hreq.
  apply forEach_first_throw.
  - intros j [k w] Hj. apply checkKey_ok. by eapply Forall_lookup_1.
  - by apply checkKey_inherited.
Qed.

Lemma X2_inherited_key_mismatch_witness :
  validateSchema (VObject [("name", VString "Kevin"); ("toString", VBoolean true)]) nameSchema
  = Throw (DataTypeMismatch "boolean" None).
Proof.
  refine (X2_inherited_key_mismatch {[ "name" := StringSchema None ]} None
            [("name", VString "Kevin")] [] "toString" (VBoolean true) _ _ _ _).
  - intros l name Hl. discriminate Hl.
  - constructor; [| constructor]. exists (StringSchema None). split; reflexivity.
  - reflexivity.
  - vm_compute. do 5 right. left.
Defined.

(** ** The host's TypeError *)

Lemma null_free_throws (v : value) :
  null_free v = true → ∀ schema, SchemaService_validate v schema ≠ Throw KeysOfNull.
Proof.
  induction v as [s | x | b | | | entries IH | elems IH] using value_ind';
    intros Hfree [sch | name]; try (by rewrite validate_proto_member);
    change (SchemaService_validate ?v (Node ?s)) with (validateSchema v s).
  all: destruct sch as [enum | | | props req | items].
  all: try (rewrite stringValidator_eq; by repeat case_match).
  all: try (rewrite numberValidator_eq; by case_bool_decide).
  all: try (rewrite booleanValidator_eq; by case_bool_decide).
  all: try (by rewrite objValidator_not_object).
  all: try (by rewrite arrayValidator_not_array).
  - rewrite objValidator_object. destruct (requiredMissing _ _); [done |].
    intros (pre & [k w] & post & -> & _ & Hthrow)%forEach_throw_inv.
    simpl in Hfree. rewrite forallb_app in Hfree. simpl in Hfree.
    apply andb_true_iff in Hfree as [_ [Hw _]%andb_true_iff].
    apply Forall_app in IH as [_ [IHw _]%Forall_cons].
    unfold checkKey, keyNotFound in Hthrow.
    destruct (get_property props k); [| by case_bool_decide].
    by apply (IHw Hw) in Hthrow.
  - rewrite objValidator_array. destruct (requiredMissing _ _); [done |].
    intros (pre & w & post & -> & _ & Hthrow)%forEach_throw_inv.
    simpl in Hfree. rewrite forallb_app in Hfree. simpl in Hfree.
    apply andb_true_iff in Hfree as [_ [Hw _]%andb_true_iff].
    apply Forall_app in IH as [_ [IHw _]%Forall_cons].
    unfold checkKey, keyNotFound in Hthrow.
    destruct (get_property props _); [| by case_bool_decide].
    by apply (IHw Hw) in Hthrow.
  - rewrite arrayValidator_array.
    intros (pre & w & post & -> & _ & Hthrow)%forEach_throw_inv.
    simpl in Hfree. rewrite forallb_app in Hfree. simpl in Hfree.
    apply andb_true_iff in Hfree as [_ [Hw _]%andb_true_iff].
    apply Forall_app in IH as [_ [IHw _]%Forall_cons].
    by apply (IHw Hw) in Hthrow.
Qed.

Lemma no_toString_property (props : gmap string schema) (req : option (list string))
    (key : string) (s : schema) :
  props !! key = Some s → no_toString (ObjectSchema props req) → no_toString s.
Proof. intros Hkey Hfree p r Hocc. apply (Hfree p r). by eapply occurs_property. Qed.

Lemma no_toString_items (items : schema) :
  no_toString (ArraySchema items) → no_toString items.
Proof. intros Hfree p r Hocc. apply (Hfree p r). by apply occurs_items. Qed.

Lemma no_toString_checkKey (props : gmap string schema) (req : option (list string))
    (key : string) (w : value) :
  no_toString (ObjectSchema props req) →
  (∀ s, no_toString s → validateSchema w s ≠ Throw PropsNotPrimitive) →
  checkKey SchemaService_validate props key w ≠ Throw PropsNotPrimitive.
Proof.
  intros Hfree IH. destruct (props !! key) as [s |] eqn:Hkey.
  - rewrite (checkKey_own _ _ _ s) by done. apply IH. by eapply no_toString_property.
  - destruct (decide (key ∈ Object_prototype_keys)).
    + by rewrite checkKey_inherited.
    + rewrite checkKey_unknown, keyNotFound_plain; [done | | done | done].
      apply (Hfree props req), occurs_here.
Qed.

Lemma no_toString_throws (v : value) (s : schema) :
  no_toString s → validateSchema v s ≠ Throw PropsNotPrimitive.
Proof.
  revert s.
  induction v as [str | x | b | | | entries IH | elems IH] using value_ind';
    intros [enum | | | props req | items] Hfree.
  all: try (rewrite stringValidator_eq; by repeat case_match).
  all: try (rewrite numberValidator_eq; by case_bool_decide).
  all: try (rewrite booleanValidator_eq; by case_bool_decide).
  all: try (by rewrite objValidator_not_object).
  all: try (by rewrite arrayValidator_not_array).
  - by rewrite objValidator_null.
  - rewrite objValidator_object. destruct (requiredMissing _ _); [done |].
    intros (pre & [k w] & post & -> & _ & Hthrow)%forEach_throw_inv.
    apply Forall_app in IH as [_ [IHw _]%Forall_cons]. simpl in Hthrow, IHw.
    by eapply no_toString_checkKey.
  - rewrite objValidator_array. destruct (requiredMissing _ _); [done |].
    intros (pre & w & post & -> & _ & Hthrow)%forEach_throw_inv.
    apply Forall_app in IH as [_ [IHw _]%Forall_cons]. simpl in Hthrow.
    by eapply no_toString_checkKey.
  - rewrite arrayValidator_array.
    intros (pre & w & post & -> & _ & Hthrow)%forEach_throw_inv.
    apply Forall_app in IH as [_ [IHw _]%Forall_cons].
    by apply (IHw items (no_toString_items _ Hfree)).
Qed.

(** X3.  The host's TypeError has two sources only, [null] in the data
    and a property named [toString] declared in the schema: on a value that
    contains no [null], at any depth, and a schema none of whose Object nodes
    declares [toString], a call either returns or throws one of the four
    validation errors. *)
Theorem X3_null_free_validation_errors_only (v : value) (s : schema) :
  null_free v = true → no_toString s →
  validateSchema v s = Ok ∨ ∃ k, fails_with k (validateSchema v s).
Proof.
  intros Hnull HtoString.
  pose proof (null_free_throws v Hnull (Node s)) as Hkeys.
  pose proof (no_toString_throws v s HtoString) as Hprops.
  fold (validateSchema v s) in Hkeys.
  destruct (validateSchema v s) as [| e]; [by left | right].
  destruct e; simpl; eauto; [by destruct Hkeys | by destruct Hprops].
Qed.

Lemma aNumbers_no_toString : no_toString aNumbers.
Proof.
  intros props req Hocc. inversion Hocc as [| | ? Hitems]; subst.
  inversion Hitems as [| ? ? key s Hkey Hs |]; subst; [done |].
  apply lookup_singleton_Some in Hkey as [_ <-]. inversion Hs.
Qed.

Lemma X3_null_free_validation_errors_only_witness :
  validateSchema (VArray [VObject [("a", VUndefined)]]) aNumbers = Ok
  ∨ ∃ k, fails_with k (validateSchema (VArray [VObject [("a", VUndefined)]]) aNumbers).
Proof.
  apply (X3_null_free_validation_errors_only (VArray [VObject [("a", VUndefined)]]) aNumbers).
  - reflexivity.
  - exact aNumbers_no_toString.
Defined.

(** With [toString] declared, a value without [null] does end in the
    TypeError, at the key the schema does not declare. *)
Example toString_declared :
  validateSchema (VArray [VObject [("toString", VString "x"); ("id", VNumber 1)]])
    (ArraySchema (ObjectSchema {[ "toString" := StringSchema None ]} None))
  = Throw PropsNotPrimitive.
Proof. vm_compute. reflexivity. Qed.

(** With a [null] inside, the TypeError does surface from any depth. *)
Example null_inside :
  validateSchema (VArray [VObject [("a", VNumber 1)]; VNull]) aNumbers = Throw KeysOfNull.
Proof. vm_compute. reflexivity. Qed.

(** ** Required names that are not declared *)

(** X4.  An Object schema that requires a name its [properties] do not
    declare accepts no value at all: without the key the required-name test
    fails, and with it the key loop rejects the key. *)
Theorem X4_undeclared_required_unsatisfiable (props : gmap string schema)
    (req : list string) (name : string) (data : value) :
  name ∈ req → props !! name = None →
  validateSchema data (ObjectSchema props (Some req)) ≠ Ok.
Proof.
  intros Hin Hname.
  assert (∀ entries, validateSchema (VObject entries) (ObjectSchema props (Some req)) ≠ Ok)
    as Hobject.
  { intros entries [Hreq Hall]%object_ok_iff.
    specialize (Hreq req name eq_refl Hin).
    apply list_elem_of_fmap in Hreq as ([k w] & -> & Hentry).
    rewrite Forall_forall in Hall. destruct (Hall _ Hentry) as (s & Hs & _).
    simpl in *. congruence. }
  destruct data as [s | x | b | | | entries | elems].
  1-3, 5: by rewrite objValidator_not_object.
  - by rewrite objValidator_null.
  - apply Hobject.
  - rewrite array_as_object. apply Hobject.
Qed.

Lemma X4_undeclared_required_unsatisfiable_witness :
  validateSchema (VObject [("id", VNumber 1)]) (ObjectSchema ∅ (Some ["id"])) ≠ Ok.
Proof.
  apply (X4_undeclared_required_unsatisfiable ∅ ["id"] "id"); [left | reflexivity].
Defined.

(** ** The order of the keys *)

(** X5.  Whether a mapping passes a schema does not depend on the order in
    which its keys are enumerated: a mapping and any reordering of its entries
    are either both accepted or both rejected.  (The error thrown for a
    rejected mapping does depend on the order.) *)
Theorem X5_success_ignores_key_order (entries entries' : list (string * value))
    (s : schema) :
  entries ≡ₚ entries' →
  (validateSchema (VObject entries) s = Ok ↔ validateSchema (VObject entries') s = Ok).
Proof.
  intros Hperm. destruct s as [enum | | | props req | items].
  - by rewrite !stringValidator_eq.
  - by rewrite !numberValidator_eq.
  - by rewrite !booleanValidator_eq.
  - rewrite !object_ok_iff.
    assert (∀ k, k ∈ entries.*1 ↔ k ∈ entries'.*1) as Hkeys
      by (intros k; by rewrite Hperm).
    split; intros [Hreq Hall]; split.
    + intros l name Hl Hname. apply Hkeys. by eapply Hreq.
    + by rewrite <- Hperm.
    + intros l name Hl Hname. apply Hkeys. by eapply Hreq.
    + by rewrite Hperm.
  - by rewrite !arrayValidator_not_array.
Qed.

Lemma X5_success_ignores_key_order_witness :
  validateSchema (VObject [("a", VNumber 1); ("b", VString "x")])
    (ObjectSchema {[ "a" := NumberSchema; "b" := StringSchema None ]} (Some ["b"])) = Ok
  ↔ validateSchema (VObject [("b", VString "x"); ("a", VNumber 1)])
      (ObjectSchema {[ "a" := NumberSchema; "b" := StringSchema None ]} (Some ["b"])) = Ok.
Proof.
  apply (X5_success_ignores_key_order [("a", VNumber 1); ("b", VString "x")]
           [("b", VString "x"); ("a", VNumber 1)]).
  apply perm_swap.
Defined.

(** The error of a rejected mapping follows the enumeration order. *)
Example error_follows_key_order :
  validateSchema (VObject [("name", VNumber 5); ("hello", VString "world")]) nameSchema
  = Throw (DataTypeMismatch "number" (Some "string"))
  ∧ validateSchema (VObject [("hello", VString "world"); ("name", VNumber 5)]) nameSchema
    = Throw (KeyNotFound "hello").
Proof. split; vm_compute; reflexivity. Qed.

(** ** Concatenation of arrays *)

Lemma forEach_app {A : Type} (callback : A → nat → result) (i : nat) (xs ys : list A) :
  forEach callback i (xs ++ ys) =
  match forEach callback i xs with
  | Ok => forEach callback (i + length xs) ys
  | Throw e => Throw e
  end.
Proof.
  revert i. induction xs as [| x xs IH]; intros i; simpl.
  - by rewrite Nat.add_0_r.
  - destruct (callback x i); [| done].
    rewrite IH. by replace (S i + length xs) with (i + S (length xs)) by lia.
Qed.

Lemma forEach_index_irrelevant {A : Type} (f : A → result) (i j : nat) (xs : list A) :
  forEach (λ x _, f x) i xs = forEach (λ x _, f x) j xs.
Proof.
  revert i j. induction xs as [| x xs IH]; intros i j; simpl; [done |].
  destruct (f x); [apply IH | done].
Qed.

(** X6.  Validating the concatenation of two arrays is validating the
    first and, if it passes, the second: the outcome is the first array's
    error when it has one, and the second array's outcome otherwise. *)
Theorem X6_array_concatenation (items : schema) (xs ys : list value) :
  validateSchema (VArray (xs ++ ys)) (ArraySchema items) =
  match validateSchema (VArray xs) (ArraySchema items) with
  | Ok => validateSchema (VArray ys) (ArraySchema items)
  | Throw e => Throw e
  end.
Proof.
  rewrite !arrayValidator_array, forEach_app.
  destruct (forEach _ 0 xs); [| done].
  apply forEach_index_irrelevant.
Qed.

(** ** Declaring more properties *)

Lemma entry_ok_weaken (props props' : gmap string schema) (entry : string * value) :
  props ⊆ props' → entry_ok props entry → entry_ok props' entry.
Proof.
  intros Hsub (s & Hs & Hok). exists s. split; [| done].
  by eapply lookup_weaken.
Qed.

(** X7.  Declaring further properties in an Object schema, its [required]
    list unchanged, rejects no value that passed before. *)
Theorem X7_more_properties_keep_valid (props props' : gmap string schema)
    (req : option (list string)) (data : value) :
  props ⊆ props' →
  validateSchema data (ObjectSchema props req) = Ok →
  validateSchema data (ObjectSchema props' req) = Ok.
Proof.
  intros Hsub.
  assert (∀ entries,
            validateSchema (VObject entries) (ObjectSchema props req) = Ok →
            validateSchema (VObject entries) (ObjectSchema props' req) = Ok) as Hobject.
  { intros entries. rewrite !object_ok_iff. intros [Hreq Hall]. split; [done |].
    eapply Forall_impl; [done |]. intros entry. by apply entry_ok_weaken. }
  destruct data as [s | x | b | | | entries | elems].
  1-3, 5: by rewrite objValidator_not_object.
  - by rewrite objValidator_null.
  - apply Hobject.
  - rewrite !array_as_object. apply Hobject.
Qed.

Lemma X7_more_properties_keep_valid_witness :
  validateSchema (VObject [("name", VString "Kevin")])
    (ObjectSchema {[ "name" := StringSchema None; "age" := NumberSchema ]} None) = Ok.
Proof.
  apply (X7_more_properties_keep_valid {[ "name" := StringSchema None ]}
           {[ "name" := StringSchema None; "age" := NumberSchema ]} None).
  - apply insert_mono, map_empty_subseteq.
  - vm_compute. reflexivity.
Defined.

(** ** Nesting *)

(** X8.  Nesting is transparent at every depth: a value wrapped [n] times
    in a one-element array of an object with the single key [key], validated
    against the schema wrapped the same way (the key declared and required),
    has the outcome of the value against the schema. *)
Theorem X8_nesting_transparent (key : string) (n : nat) (v : value) (s : schema) :
  validateSchema (nestValue key n v) (nestSchema key n s) = validateSchema v s.
Proof.
  induction n as [| n IH]; [done |]. simpl.
  rewrite arrayValidator_array. simpl.
  rewrite objValidator_object.
  assert (requiredMissing (Some [key]) [(key, nestValue key n v)].*1 = false) as ->.
  { apply requiredMissing_false_iff. by intros l name [= <-]. }
  simpl. rewrite (checkKey_own _ _ _ (nestSchema key n s)) by apply lookup_singleton_eq.
  rewrite IH. by destruct (validateSchema v s).
Qed.

(** ** Where an error comes from *)

Lemma raised_by_property (props : gmap string schema) (req : option (list string))
    (key : string) (s : schema) (e : exn) :
  props !! key = Some s → raised_by s e → raised_by (ObjectSchema props req) e.
Proof.
  intros Hkey. destruct e as [ty [type |] | l | k | | |]; simpl.
  - intros (s' & Hs' & Hty). exists s'. split; [| done]. by eapply occurs_property.
  - intros (p & r & k & Hocc & Hk). exists p, r, k. split; [| done].
    by eapply occurs_property.
  - intros [Hne (p & Hocc)]. split; [done |]. exists p. by eapply occurs_property.
  - intros (p & r & Hocc & Hk). exists p, r. split; [| done]. by eapply occurs_property.
  - intros (enum & Hocc). exists enum. by eapply occurs_property.
  - intros (p & r & Hocc). exists p, r. by eapply occurs_property.
  - intros (p & r & Hocc & Hk). exists p, r. split; [| done]. by eapply occurs_property.
Qed.

Lemma raised_by_items (items : schema) (e : exn) :
  raised_by items e → raised_by (ArraySchema items) e.
Proof.
  destruct e as [ty [type |] | l | k | | |]; simpl.
  - intros (s' & Hs' & Hty). exists s'. split; [| done]. by apply occurs_items.
  - intros (p & r & k & Hocc & Hk). exists p, r, k. split; [| done].
    by apply occurs_items.
  - intros [Hne (p & Hocc)]. split; [done |]. exists p. by apply occurs_items.
  - intros (p & r & Hocc & Hk). exists p, r. split; [| done]. by apply occurs_items.
  - intros (enum & Hocc). exists enum. by apply occurs_items.
  - intros (p & r & Hocc). exists p, r. by apply occurs_items.
  - intros (p & r & Hocc & Hk). exists p, r. split; [| done]. by apply occurs_items.
Qed.

Lemma raised_by_mismatch (dataType : string) (s : schema) :
  raised_by s (DataTypeMismatch dataType (schema_type (Node s))).
Proof. destruct s; simpl; eexists; (split; [apply occurs_here | done]). Qed.

(** What the callback of the key loop throws points into the object schema. *)
Lemma checkKey_raised_by (props : gmap string schema) (req : option (list string))
    (key : string) (w : value) (e : exn) :
  (∀ s, validateSchema w s = Throw e → raised_by s e) →
  checkKey SchemaService_validate props key w = Throw e →
  raised_by (ObjectSchema props req) e.
Proof.
  intros IH. destruct (props !! key) as [s |] eqn:Hkey.
  - rewrite (checkKey_own _ _ _ s) by done. intros Hthrow%IH.
    by eapply raised_by_property.
  - destruct (decide (key ∈ Object_prototype_keys)).
    + rewrite checkKey_inherited by done. intros [= <-]. simpl.
      exists props, req, key. split; [apply occurs_here | done].
    + rewrite checkKey_unknown by done. intros [= <-].
      unfold keyNotFound. case_bool_decide as HtoString; simpl.
      * exists props, req. split; [apply occurs_here | done].
      * exists props, req. split; [apply occurs_here | done].
Qed.

(** X9.  Every exception points at a node of the schema it was validated
    against: a type mismatch reports the type of one of its nodes (or
    [undefined], for an undeclared key of an Object node that names a member
    of Object.prototype), a missing-required error carries the non-empty
    [required] list of one of its Object nodes, an unknown key is undeclared in
    one of its Object nodes, an enum violation needs a String node with an
    [enum], and the host's TypeError needs an Object node (one that declares
    [toString], when it comes from the message of line 77). *)
Theorem X9_errors_point_into_schema (v : value) (s : schema) (e : exn) :
  validateSchema v s = Throw e → raised_by s e.
Proof.
  revert s e.
  induction v as [str | x | b | | | entries IH | elems IH] using value_ind';
    intros s e; destruct s as [enum | | | props req | items].
  all: try (rewrite stringValidator_eq; repeat case_match; intros [= <-];
            first [apply (raised_by_mismatch _ (StringSchema enum))
                  | by subst; eexists; apply occurs_here]).
  all: try (rewrite numberValidator_eq; case_bool_decide; intros [= <-];
            apply (raised_by_mismatch _ NumberSchema)).
  all: try (rewrite booleanValidator_eq; case_bool_decide; intros [= <-];
            apply (raised_by_mismatch _ BooleanSchema)).
  all: try (rewrite objValidator_not_object by done; intros [= <-];
            apply (raised_by_mismatch _ (ObjectSchema props req))).
  all: try (rewrite arrayValidator_not_array by done; intros [= <-];
            apply (raised_by_mismatch _ (ArraySchema items))).
  - rewrite objValidator_null. intros [= <-]. exists props, req. apply occurs_here.
  - rewrite objValidator_object.
    destruct (requiredMissing req entries.*1) eqn:Hreq.
    + intros [= <-]. destruct req as [[| r rs] |]; try done.
      split; [done |]. exists props. apply occurs_here.
    + intros (pre & [k w] & post & -> & _ & Hthrow)%forEach_throw_inv.
      apply Forall_app in IH as [_ [IHw _]%Forall_cons]. simpl in Hthrow, IHw.
      eapply checkKey_raised_by; [| exact Hthrow]. intros s' Hs'. by apply IHw.
  - rewrite objValidator_array.
    destruct (requiredMissing req _) eqn:Hreq.
    + intros [= <-]. destruct req as [[| r rs] |]; try done.
      split; [done |]. exists props. apply occurs_here.
    + intros (pre & w & post & -> & _ & Hthrow)%forEach_throw_inv.
      apply Forall_app in IH as [_ [IHw _]%Forall_cons]. simpl in Hthrow, IHw.
      eapply checkKey_raised_by; [| exact Hthrow]. intros s' Hs'. by apply IHw.
  - rewrite arrayValidator_array.
    intros (pre & w & post & -> & _ & Hthrow)%forEach_throw_inv.
    apply Forall_app in IH as [_ [IHw _]%Forall_cons].
    apply raised_by_items. by apply IHw.
Qed.

Lemma X9_errors_point_into_schema_witness :
  raised_by aNumbers (DataTypeMismatch "string" (Some "number")).
Proof.
  apply (X9_errors_point_into_schema
           (VArray [VObject [("a", VNumber 5)]; VObject [("a", VString "hello")]])).
  vm_compute. reflexivity.
Defined.

(** ** Absent values *)

(** X10.  No schema accepts [undefined] or [null].  [undefined] fails
    every schema with a type mismatch that reports the type "undefined";
    [null] fails every schema but an Object schema with a type mismatch that
    reports the type "object", and ends an Object schema's check in the host's
    TypeError. *)
Theorem X10_no_schema_for_absent_values (s : schema) :
  validateSchema VUndefined s = Throw (DataTypeMismatch "undefined" (schema_type (Node s)))
  ∧ validateSchema VNull s ≠ Ok
  ∧ (schema_type (Node s) ≠ Some "object" →
     validateSchema VNull s = Throw (DataTypeMismatch "object" (schema_type (Node s)))).
Proof.
  destruct s as [enum | | | props req | items]; by split_and!.
Qed.

Lemma X10_no_schema_for_absent_values_witness :
  validateSchema VNull (ArraySchema NumberSchema)
  = Throw (DataTypeMismatch "object" (Some "array")).
Proof. apply (X10_no_schema_for_absent_values (ArraySchema NumberSchema)). discriminate. Defined.

(** ** The values a schema accepts *)

Lemma entries_conform (props : gmap string schema) (entries : list (string * value)) :
  Forall (λ entry, ∀ s, validateSchema entry.2 s = Ok ↔ conforms entry.2 s) entries →
  Forall (entry_ok props) entries
  ↔ Forall (λ entry, ∃ s, props !! entry.1 = Some s ∧ conforms entry.2 s) entries.
Proof.
  intros IH. rewrite !Forall_forall. rewrite Forall_forall in IH.
  split; intros Hall entry Hin; destruct (Hall entry Hin) as (s & Hs & Hok);
    exists s; (split; [done |]); by apply (IH entry Hin).
Qed.

(** X11.  A call returns normally exactly on the values the schema
    describes: a string (one of the listed ones, under an [enum]) for a
    String schema, a number or a boolean for a Number or Boolean schema, an
    array all of whose elements pass [items] for an Array schema, and for an
    Object schema a mapping (or an array, read as the mapping of its indices)
    that has every required name as a key and only declared keys, each with a
    value that passes the key's sub-schema. *)
Theorem X11_accepts_conforming_values (v : value) (s : schema) :
  validateSchema v s = Ok ↔ conforms v s.
Proof.
  revert s.
  induction v as [str | x | b | | | entries IH | elems IH] using value_ind';
    intros [enum | | | props req | items];
    try (split; [done | by inversion 1]).
  - rewrite stringValidator_eq. split.
    + intros Hok. constructor. intros l ->. by case_bool_decide.
    + inversion 1 as [? ? Henum | | | | |]; subst. destruct enum as [l |]; [| done].
      rewrite bool_decide_eq_true_2; [done | by apply Henum].
  - split; [intros _; constructor | done].
  - split; [intros _; constructor | done].
  - rewrite object_ok_iff, (entries_conform props entries IH). split.
    + intros [Hreq Hall]. by constructor.
    + by inversion 1.
  - rewrite array_as_object, object_ok_iff, (entries_conform props (indexEntries elems)).
    + split; [intros [Hreq Hall]; by constructor | by inversion 1].
    + unfold indexEntries. apply Forall_lookup. intros i [k w].
      rewrite list_lookup_imap. destruct (elems !! i) as [w' |] eqn:Hi; [| done].
      intros [= <- <-]. simpl. intros s. exact (Forall_lookup_1 _ _ _ _ IH Hi s).
  - rewrite arrayValidator_array, forEach_ok. split.
    + intros Hall. constructor. apply Forall_lookup. intros i w Hi.
      apply (Forall_lookup_1 _ _ _ _ IH Hi). by apply (Hall i).
    + inversion 1 as [| | | | | ? ? Hall]; subst. intros i w Hi.
      apply (Forall_lookup_1 _ _ _ _ IH Hi). exact (Forall_lookup_1 _ _ _ _ Hall Hi).
Qed.

(** ** The required list as a set *)

Lemma any_value_object_ok_iff (data : value) (props : gmap string schema)
    (req : option (list string)) :
  validateSchema data (ObjectSchema props req) = Ok
  ↔ ∃ entries,
      (data = VObject entries ∨ ∃ elems, data = VArray elems ∧ entries = indexEntries elems)
      ∧ required_present req entries.*1 ∧ Forall (entry_ok props) entries.
Proof.
  destruct data as [s | x | b | | | entries | elems].
  1-5: split; [done | by intros (? & [? | (? & ? & _)] & _)].
  - rewrite object_ok_iff. split.
    + intros Hok. exists entries. split; [by left | done].
    + by intros (? & [[= <-] | (? & ? & _)] & Hok).
  - rewrite array_as_object, object_ok_iff. split.
    + intros Hok. exists (indexEntries elems). split; [right; by exists elems | done].
    + by intros (? & [? | (? & [= <-] & ->)] & Hok).
Qed.

(** X12.  Only the set of required names matters for acceptance: an
    empty [required] list behaves exactly as an absent one, for every value,
    and two lists with the same names accept the same values, whatever the
    order and the repetitions.  (The error thrown for a missing name carries
    the list as written.) *)
Theorem X12_required_is_a_set (props : gmap string schema) (data : value) :
  validateSchema data (ObjectSchema props (Some []))
  = validateSchema data (ObjectSchema props None)
  ∧ ∀ req req' : list string,
      (∀ name, name ∈ req ↔ name ∈ req') →
      (validateSchema data (ObjectSchema props (Some req)) = Ok
       ↔ validateSchema data (ObjectSchema props (Some req')) = Ok).
Proof.
  split.
  - by destruct data.
  - intros req req' Hsame. rewrite !any_value_object_ok_iff.
    assert (∀ keys, required_present (Some req) keys ↔ required_present (Some req') keys)
      as Hreq.
    { intros keys. split; intros Hall l name [= <-] Hname;
        apply (Hall _ name eq_refl); by apply Hsame. }
    split; intros (entries & Hdata & Hpresent & Hall); exists entries;
      (split_and!; [done | by apply Hreq | done]).
Qed.

Lemma X12_required_is_a_set_witness :
  validateSchema (VObject [("a", VNumber 1)])
    (ObjectSchema {[ "a" := NumberSchema ]} (Some ["a"])) = Ok
  ↔ validateSchema (VObject [("a", VNumber 1)])
      (ObjectSchema {[ "a" := NumberSchema ]} (Some ["a"; "a"])) = Ok.
Proof.
  apply (X12_required_is_a_set {[ "a" := NumberSchema ]} (VObject [("a", VNumber 1)])).
  intros name. rewrite !elem_of_cons. tauto.
Defined.

(** * Further properties of the graph validator *)

(** ** Calls that end *)

Section halting.
Context (σ : Graph.store).

Lemma halts_ret {A : Type} (a : A) : halts σ (Graph.ret a).
Proof. done. Qed.

Lemma halts_throw {A : Type} (e : exn) : halts σ (Graph.throw (A := A) e).
Proof. done. Qed.

Lemma halts_stuck {A : Type} : halts σ (Graph.stuck (A := A)).
Proof. done. Qed.

Lemma halts_deref (l : Graph.loc) : halts σ (Graph.deref l).
Proof. unfold halts, Graph.deref. by destruct (Graph.objects σ !! l). Qed.

Lemma halts_schema_at (l : Graph.loc) : halts σ (Graph.schema_at l).
Proof. unfold halts, Graph.schema_at. by destruct (Graph.schemas σ !! l). Qed.

Lemma halts_bind {A B : Type} (m : Graph.M A) (k : A → Graph.M B) :
  Graph.reads_only m → halts σ m → (∀ a, halts σ (k a)) → halts σ (Graph.bind m k).
Proof.
  intros Hreads Hm Hk. unfold halts, Graph.bind in *. specialize (Hreads σ).
  destruct (m σ) as [[a | e | |] σ']; simpl in *; subst; by try apply Hk.
Qed.

Ltac halts_tac :=
  repeat first
    [ apply halts_ret | apply halts_throw | apply halts_stuck
    | apply halts_deref | apply halts_schema_at
    | apply halts_bind;
        [first [ apply GraphFacts.reads_only_deref | apply GraphFacts.reads_only_schema_at
               | apply GraphFacts.reads_only_schema_type
               | apply GraphFacts.reads_only_schema_enum
               | apply GraphFacts.reads_only_schema_properties
               | apply GraphFacts.reads_only_schema_required
               | apply GraphFacts.reads_only_schema_items
               | apply GraphFacts.reads_only_isArray
               | apply GraphFacts.reads_only_Object_keys
               | apply GraphFacts.reads_only_get
               | apply GraphFacts.reads_only_elements ]
        | | intros ?]
    | match goal with
      | |- halts _ (match ?x with _ => _ end) => destruct x
      | |- halts _ (if ?b then _ else _) => destruct b
      end ].

Lemma halts_schema_type (schema : Graph.schemaArg) : halts σ (Graph.schema_type schema).
Proof. unfold Graph.schema_type. halts_tac. Qed.

Lemma halts_schema_enum (schema : Graph.schemaArg) : halts σ (Graph.schema_enum schema).
Proof. unfold Graph.schema_enum. halts_tac. Qed.

Lemma halts_schema_properties (schema : Graph.schemaArg) :
  halts σ (Graph.schema_properties schema).
Proof. unfold Graph.schema_properties. halts_tac. Qed.

Lemma halts_schema_required (schema : Graph.schemaArg) :
  halts σ (Graph.schema_required schema).
Proof. unfold Graph.schema_required. halts_tac. Qed.

Lemma halts_schema_items (schema : Graph.schemaArg) : halts σ (Graph.schema_items schema).
Proof. unfold Graph.schema_items. halts_tac. Qed.

Lemma halts_isArray (data : Graph.jsval) : halts σ (Graph.isArray data).
Proof. unfold Graph.isArray. halts_tac. Qed.

Lemma halts_Object_keys (data : Graph.jsval) : halts σ (Graph.Object_keys data).
Proof. unfold Graph.Object_keys. halts_tac. Qed.

Lemma halts_get (data : Graph.jsval) (key : string) : halts σ (Graph.get data key).
Proof. unfold Graph.get. halts_tac. Qed.

Lemma halts_elements (data : Graph.jsval) : halts σ (Graph.elements data).
Proof. unfold Graph.elements. halts_tac. Qed.

Lemma halts_forEach {A : Type} (callback : A → nat → Graph.M unit) (i : nat) (arr : list A) :
  (∀ x j, Graph.reads_only (callback x j)) →
  (∀ x j, x ∈ arr → halts σ (callback x j)) →
  halts σ (Graph.forEach callback i arr).
Proof.
  intros Hreads. revert i. induction arr as [| x rest IH]; intros i Hcb; simpl.
  - apply halts_ret.
  - apply halts_bind; [apply Hreads | apply Hcb; left |].
    intros _. apply IH. intros y j Hy. apply Hcb. by right.
Qed.

Lemma halts_primitive (data : Graph.jsval) (schema : Graph.schemaArg) :
  halts σ (Graph.stringValidator_validate data schema)
  ∧ halts σ (Graph.numberValidator_validate data schema)
  ∧ halts σ (Graph.booleanValidator_validate data schema).
Proof.
  split_and!.
  - unfold Graph.stringValidator_validate, Graph.mismatch.
    apply halts_bind; [apply GraphFacts.reads_only_schema_type | apply halts_schema_type |].
    intros ty. destruct (_ || _); [apply halts_throw |].
    apply halts_bind; [apply GraphFacts.reads_only_schema_enum | apply halts_schema_enum |].
    intros enum. halts_tac.
  - unfold Graph.numberValidator_validate, Graph.mismatch.
    apply halts_bind; [apply GraphFacts.reads_only_schema_type | apply halts_schema_type |].
    intros ty. halts_tac.
  - unfold Graph.booleanValidator_validate, Graph.mismatch.
    apply halts_bind; [apply GraphFacts.reads_only_schema_type | apply halts_schema_type |].
    intros ty. halts_tac.
Qed.

Lemma halts_bind_run {A B : Type} (m : Graph.M A) (k : A → Graph.M B) :
  Graph.reads_only m → halts σ m →
  (∀ a, m σ = (Graph.Returned a, σ) → halts σ (k a)) →
  halts σ (Graph.bind m k).
Proof.
  intros Hreads Hm Hk. unfold halts, Graph.bind in *. specialize (Hreads σ).
  destruct (m σ) as [[a | e | |] σ'] eqn:Hrun; simpl in *; subst; try done.
  by apply Hk.
Qed.

(** The object check ends when the recursive calls it makes end. *)
Lemma halts_objValidator (validate : Graph.jsval → Graph.schemaArg → Graph.M unit)
    (data : Graph.jsval) (schema : Graph.schemaArg) :
  (∀ d sch, Graph.reads_only (validate d sch)) →
  (∀ props dataKeys key sch d,
     Graph.schema_properties schema σ = (Graph.Returned props, σ) →
     Graph.Object_keys data σ = (Graph.Returned dataKeys, σ) →
     key ∈ dataKeys →
     Graph.get_property props key = Some sch →
     Graph.get data key σ = (Graph.Returned d, σ) →
     halts σ (validate d sch)) →
  halts σ (Graph.objValidator_validate validate data schema).
Proof.
  intros Hreads Hcalls. unfold Graph.objValidator_validate, Graph.mismatch.
  apply halts_bind; [apply GraphFacts.reads_only_schema_type | apply halts_schema_type |].
  intros ty. destruct (_ || _); [apply halts_throw |].
  apply halts_bind_run;
    [apply GraphFacts.reads_only_schema_properties | apply halts_schema_properties |].
  intros props Hprops.
  apply halts_bind;
    [apply GraphFacts.reads_only_schema_required | apply halts_schema_required |].
  intros req.
  apply halts_bind_run; [apply GraphFacts.reads_only_Object_keys | apply halts_Object_keys |].
  intros dataKeys Hkeys.
  destruct (requiredMissing req dataKeys); [apply halts_throw |].
  apply halts_forEach.
  - intros key _. unfold Graph.checkKey. destruct (Graph.get_property props key); [| done].
    apply GraphFacts.reads_only_bind; [apply GraphFacts.reads_only_get | intros d; apply Hreads].
  - intros key _ Hkey. unfold Graph.checkKey.
    destruct (Graph.get_property props key) as [sch |] eqn:Hsch; [| apply halts_throw].
    apply halts_bind_run; [apply GraphFacts.reads_only_get | apply halts_get |].
    intros d Hd. by eapply Hcalls.
Qed.

(** The array check ends when the recursive calls it makes end. *)
Lemma halts_arrayValidator (validate : Graph.jsval → Graph.schemaArg → Graph.M unit)
    (data : Graph.jsval) (schema : Graph.schemaArg) :
  (∀ d sch, Graph.reads_only (validate d sch)) →
  (∀ items elems d,
     Graph.schema_items schema σ = (Graph.Returned items, σ) →
     Graph.elements data σ = (Graph.Returned elems, σ) →
     d ∈ elems →
     halts σ (validate d (Graph.SchemaAt items))) →
  halts σ (Graph.arrayValidator_validate validate data schema).
Proof.
  intros Hreads Hcalls. unfold Graph.arrayValidator_validate, Graph.mismatch.
  apply halts_bind; [apply GraphFacts.reads_only_isArray | apply halts_isArray |].
  intros isArr.
  apply halts_bind; [apply GraphFacts.reads_only_schema_type | apply halts_schema_type |].
  intros ty. destruct (_ || _); [apply halts_throw |].
  apply halts_bind_run; [apply GraphFacts.reads_only_schema_items | apply halts_schema_items |].
  intros items Hitems.
  apply halts_bind_run; [apply GraphFacts.reads_only_elements | apply halts_elements |].
  intros elems Helems.
  apply halts_forEach; [intros d _; apply Hreads |].
  intros d _ Hd. by eapply Hcalls.
Qed.

(** A call of the service ends when the calls of the next level end. *)
Lemma halts_service (fuel : nat) (data : Graph.jsval) (schema : Graph.schemaArg) :
  (∀ props dataKeys key sch d,
     Graph.schema_properties schema σ = (Graph.Returned props, σ) →
     Graph.Object_keys data σ = (Graph.Returned dataKeys, σ) →
     key ∈ dataKeys →
     Graph.get_property props key = Some sch →
     Graph.get data key σ = (Graph.Returned d, σ) →
     halts σ (Graph.SchemaService_validate fuel d sch)) →
  (∀ items elems d,
     Graph.schema_items schema σ = (Graph.Returned items, σ) →
     Graph.elements data σ = (Graph.Returned elems, σ) →
     d ∈ elems →
     halts σ (Graph.SchemaService_validate fuel d (Graph.SchemaAt items))) →
  halts σ (Graph.SchemaService_validate (S fuel) data schema).
Proof.
  intros Hobject Harray. cbn [Graph.SchemaService_validate].
  apply halts_bind.
  { unfold Graph.getSchemaInstance.
    apply GraphFacts.reads_only_bind; [apply GraphFacts.reads_only_schema_type | done]. }
  { unfold Graph.getSchemaInstance.
    apply halts_bind; [apply GraphFacts.reads_only_schema_type | apply halts_schema_type |].
    intros ty. apply halts_ret. }
  intros [].
  - apply halts_objValidator; [intros; apply GraphFacts.reads_only_validate | done].
  - apply halts_arrayValidator; [intros; apply GraphFacts.reads_only_validate | done].
  - apply halts_primitive.
  - apply halts_primitive.
  - apply halts_primitive.
Qed.
End halting.

(** X13.  A finite schema is enough for a call to end, whatever the data
    is, cyclic or with references that lead nowhere: when the schema
    reachable from [root] is a finite tree [s], a call given more recursion
    depth than [s] is deep never runs out of it. *)
Theorem X13_finite_schema_halts (σ : Graph.store) (root : Graph.loc) (s : schema)
    (data : Graph.jsval) (fuel : nat) :
  schema_tree σ root s → schema_depth s < fuel →
  halts σ (Graph.validateSchema fuel data root).
Proof.
  unfold Graph.validateSchema. revert root s data.
  induction fuel as [| fuel IH]; intros l s data Hs Hfuel; [lia |].
  apply halts_service.
  - intros props' dataKeys key sch d Hprops' _ _ Hsch _.
    destruct Hs as [l enum Hl | l Hl | l Hl | l refs props req Hl Hprops | l ref items Hl Hitems];
      try (unfold Graph.schema_properties in Hprops';
           rewrite (GraphFacts.bind_schema_at _ _ _ _ Hl) in Hprops'; discriminate Hprops').
    rewrite (run_schema_properties _ _ _ _ Hl) in Hprops'.
    injection Hprops' as <-. unfold Graph.get_property in Hsch.
    pose proof (Hprops key) as Hkey.
    inversion Hkey as [ref s' Hs' Href Hs'key | Href Hnone]; rewrite <- Href in Hsch.
    + injection Hsch as <-. apply (IH ref s'); [done |].
      symmetry in Hs'key. apply (schema_depth_property _ req) in Hs'key. lia.
    + case_bool_decide; [| done]. injection Hsch as <-.
      destruct fuel as [| fuel]; [simpl in Hfuel; lia |].
      unfold halts. by rewrite run_inherited.
  - intros ref' elems d Hitems' _ _.
    destruct Hs as [l enum Hl | l Hl | l Hl | l refs props req Hl Hprops | l ref items Hl Hitems];
      try (unfold Graph.schema_items in Hitems';
           rewrite (GraphFacts.bind_schema_at _ _ _ _ Hl) in Hitems'; discriminate Hitems').
    rewrite (run_schema_items _ _ _ Hl) in Hitems'. injection Hitems' as <-.
    apply (IH ref items); [done | simpl in Hfuel; lia].
Qed.

Lemma X13_finite_schema_halts_witness :
  halts selfArrayStore (Graph.validateSchema 3 (Graph.JRef 1) 1).
Proof.
  apply (X13_finite_schema_halts selfArrayStore 1 (ArraySchema (ArraySchema NumberSchema))).
  - apply (tree_array _ 1 2); [done |]. apply (tree_array _ 2 3); [done |].
    by apply tree_number.
  - simpl. lia.
Defined.

(** On that store the call throws: the array, met again as its own element's
    element, is no number. *)
Example self_array_rejected :
  Graph.validateSchema 3 (Graph.JRef 1) 1 selfArrayStore
  = (Graph.Threw (DataTypeMismatch "object" (Some "number")), selfArrayStore).
Proof. vm_compute. reflexivity. Qed.

Lemma value_depth_entry (entries : list (string * value)) (k : string) (w : value) :
  (k, w) ∈ entries → value_depth w < value_depth (VObject entries).
Proof.
  intros Hin. simpl. apply Nat.lt_succ_r.
  induction entries as [| [k' w'] entries IH]; [by apply elem_of_nil in Hin |].
  simpl. apply elem_of_cons in Hin as [[= -> ->] | Hin]; [lia |].
  specialize (IH Hin). lia.
Qed.

Lemma value_depth_elem (elems : list value) (w : value) :
  w ∈ elems → value_depth w < value_depth (VArray elems).
Proof.
  intros Hin. simpl. apply Nat.lt_succ_r.
  induction elems as [| w' elems IH]; [by apply elem_of_nil in Hin |].
  simpl. apply elem_of_cons in Hin as [-> | Hin]; [lia |].
  specialize (IH Hin). lia.
Qed.

(** X14.  A finite value is enough as well, whatever the schema objects
    are, cyclic or missing: when the value reachable from [data] is a finite
    tree [v], a call given more recursion depth than [v] is deep never runs
    out of it. *)
Theorem X14_finite_value_halts (σ : Graph.store) (root : Graph.loc)
    (data : Graph.jsval) (v : value) (fuel : nat) :
  value_tree σ data v → value_depth v < fuel →
  halts σ (Graph.validateSchema fuel data root).
Proof.
  unfold Graph.validateSchema. generalize (Graph.SchemaAt root). clear root.
  revert data v. induction fuel as [| fuel IH]; intros data v sch Hv Hfuel; [lia |].
  apply halts_service.
  - intros props dataKeys key sch' d _ Hkeys Hkey _ Hget.
    destruct Hv as [s | x | b | | | l ents entries Hl Hnodup Hents | l ents elems Hl Helems];
      try (injection Hkeys as <-; by apply elem_of_nil in Hkey);
      try discriminate Hkeys.
    + rewrite (run_Object_keys _ _ _ Hl) in Hkeys. injection Hkeys as <-. simpl in Hkey.
      apply list_elem_of_fmap in Hkey as ([k d'] & Hk' & Hent).
      simpl in Hk'. subst key.
      rewrite (run_get _ _ _ _ d' Hl Hnodup Hent) in Hget. injection Hget as <-.
      apply list_elem_of_lookup in Hent as [i Hent].
      destruct (Forall2_lookup_l _ _ _ _ _ Hents Hent) as ([k' w] & Hentry & Hk & Hd).
      simpl in Hk, Hd. subst k'. apply (IH d' w); [done |].
      apply list_elem_of_lookup_2 in Hentry. apply value_depth_entry in Hentry. lia.
    + rewrite (run_Object_keys _ _ _ Hl), array_keys in Hkeys. injection Hkeys as <-.
      apply list_elem_of_fmap in Hkey as (i & -> & Hi).
      apply elem_of_seq in Hi as [_ Hi]. simpl in Hi.
      destruct (lookup_lt_is_Some_2 ents i Hi) as [d' Hd'].
      assert (Graph.get (Graph.JRef l) (pretty i) σ = (Graph.Returned d', σ)) as Hget'.
      { eapply run_get; [done | |].
        - rewrite array_keys. apply NoDup_fmap_2; [apply _ | apply NoDup_seq].
        - simpl. apply list_elem_of_lookup. exists i. by rewrite list_lookup_imap, Hd'. }
      rewrite Hget' in Hget. injection Hget as <-.
      destruct (Forall2_lookup_l _ _ _ _ _ Helems Hd') as (w & Hw & Hdw).
      apply (IH d' w); [done |].
      apply list_elem_of_lookup_2 in Hw. apply value_depth_elem in Hw. lia.
  - intros items elems' d _ Helems' Hd.
    destruct Hv as [s | x | b | | | l ents entries Hl Hnodup Hents | l ents elems Hl Helems];
      try discriminate Helems'.
    + unfold Graph.elements in Helems'.
      rewrite (GraphFacts.bind_deref _ _ _ _ Hl) in Helems'. discriminate Helems'.
    + rewrite (run_elements _ _ _ Hl) in Helems'. injection Helems' as <-.
      apply list_elem_of_lookup in Hd as [i Hd].
      destruct (Forall2_lookup_l _ _ _ _ _ Helems Hd) as (w & Hw & Hdw).
      apply (IH d w); [done |].
      apply list_elem_of_lookup_2 in Hw. apply value_depth_elem in Hw. lia.
Qed.

Lemma X14_finite_value_halts_witness :
  halts selfSchemaStore (Graph.validateSchema 3 (Graph.JRef 1) 1).
Proof.
  apply (X14_finite_value_halts selfSchemaStore 1 (Graph.JRef 1) (VArray [VArray []])).
  - apply (tree_VArray _ 1 [Graph.JRef 2]); [done |].
    constructor; [| constructor].
    apply (tree_VArray _ 2 []); [done | constructor].
  - simpl. lia.
Defined.

(** On that store the call returns: at every level the schema asks for an
    array and finds one. *)
Example self_schema_accepts :
  Graph.validateSchema 3 (Graph.JRef 1) 1 selfSchemaStore
  = (Graph.Returned (), selfSchemaStore).
Proof. vm_compute. reflexivity. Qed.

(** ** Elements after the first failure *)

Lemma graph_forEach_first_throw {A : Type} (σ : Graph.store)
    (callback : A → nat → Graph.M unit) (i : nat) (pre post : list A) (x : A) (e : exn) :
  (∀ j y, pre !! j = Some y → callback y (i + j) σ = (Graph.Returned (), σ)) →
  callback x (i + length pre) σ = (Graph.Threw e, σ) →
  Graph.forEach callback i (pre ++ x :: post) σ = (Graph.Threw e, σ).
Proof.
  revert i. induction pre as [| y pre IH]; intros i Hpre Hx; simpl in *.
  - rewrite Nat.add_0_r in Hx. unfold Graph.bind. by rewrite Hx.
  - pose proof (Hpre 0 y eq_refl) as Hy. rewrite Nat.add_0_r in Hy.
    unfold Graph.bind at 1. rewrite Hy. apply IH.
    + intros j z Hj. replace (S i + j) with (i + S j) by lia. by apply Hpre.
    + by replace (S i + length pre) with (i + S (length pre)) by lia.
Qed.

(** X15.  On the store, the array check stops at the first element that
    fails: when the elements before it pass and it throws, the call throws
    the same error and leaves the store as it was, whatever comes after that
    element; what follows is never read, be it a reference that leads
    nowhere. *)
Theorem X15_later_elements_not_read (σ : Graph.store) (root items l : Graph.loc)
    (pre post : list Graph.jsval) (x : Graph.jsval) (e : exn) (fuel : nat) :
  Graph.schemas σ !! root = Some (Graph.ArrayNode items) →
  Graph.objects σ !! l = Some (Graph.ArrayObject (pre ++ x :: post)) →
  Forall (λ y, Graph.validateSchema fuel y items σ = (Graph.Returned (), σ)) pre →
  Graph.validateSchema fuel x items σ = (Graph.Threw e, σ) →
  Graph.validateSchema (S fuel) (Graph.JRef l) root σ = (Graph.Threw e, σ).
Proof.
  unfold Graph.validateSchema. intros Hroot Hl Hpre Hx.
  rewrite (run_service _ _ _ _ _ Hroot). simpl.
  unfold Graph.arrayValidator_validate.
  assert (Graph.isArray (Graph.JRef l) σ = (Graph.Returned true, σ)) as HisArray.
  { unfold Graph.isArray. by rewrite (GraphFacts.bind_deref _ _ _ _ Hl). }
  rewrite (bind_returned _ _ _ _ HisArray).
  rewrite (bind_returned _ _ _ _ (run_schema_type _ _ _ Hroot)). simpl.
  rewrite (bind_returned _ _ _ _ (run_schema_items _ _ _ Hroot)).
  rewrite (bind_returned _ _ _ _ (run_elements _ _ _ Hl)).
  apply graph_forEach_first_throw; [| done].
  intros j y Hj. by eapply Forall_lookup_1 in Hpre.
Qed.

Lemma X15_later_elements_not_read_witness :
  Graph.validateSchema 2 (Graph.JRef 1) 1 danglingStore
  = (Graph.Threw (DataTypeMismatch "string" (Some "number")), danglingStore).
Proof.
  apply (X15_later_elements_not_read danglingStore 1 2 1 [] [Graph.JRef 9]
           (Graph.JString "x")).
  - reflexivity.
  - reflexivity.
  - constructor.
  - vm_compute. reflexivity.
Defined.
